(** * Scan actions of the Prowler UI (ui/actions/scans/scans.ts)

    A shallow embedding of the eight server actions of [scans.ts] and the
    properties of the scan-lifecycle facade checked against them.

    The actions are asynchronous JavaScript functions that talk to four
    collaborators: the HTTP transport ([fetch]), the cache invalidation
    hook ([revalidatePath]), the router ([redirect]) and the console.  They
    are embedded as computations in a small monad that threads the trace of
    collaborator calls and ends in a returned value, a thrown error or a
    redirect. *)

From Stdlib Require Import ZArith NArith List String Ascii Bool Lia.
From Stdlib.Strings Require Import Byte.
From Stdlib Require Import DecimalString.
Import ListNotations.
Open Scope string_scope.
Set Warnings "-register-all".

(** ** JavaScript values *)

Module Js.

(** Numbers as the actions meet them: an integer-valued double (within
    the safe range, where [toString] prints plain decimal digits) or
    [NaN], which is what a non-numeric input converts to. *)
Inductive Number : Type :=
| NaN
| Int (z : Z).

Definition MAX_SAFE_INTEGER : Z := 2 ^ 53 - 1.

(** Parsed documents.  An object is the list of its own enumerable
    properties in enumeration order, the order of [Object.entries]. *)
Inductive Val : Type :=
| Undefined
| Null
| Bool (b : bool)
| Num (n : Number)
| Str (s : string)
| Arr (items : list Val)
| Obj (props : list (string * Val)).

(** An [Error] instance. *)
Record Error : Type := mkError { name : string; message : string }.

Definition isNaN (n : Number) : bool :=
  match n with NaN => true | Int _ => false end.

(** [n < k]; every comparison with [NaN] is false. *)
Definition ltb (n : Number) (k : Z) : bool :=
  match n with NaN => false | Int z => (z <? k)%Z end.

Definition string_of_Z (z : Z) : string :=
  NilZero.string_of_int (Z.to_int z).

(** [n.toString()] *)
Definition number_toString (n : Number) : string :=
  match n with NaN => "NaN" | Int z => string_of_Z z end.

Definition number_truthy (n : Number) : bool :=
  match n with NaN => false | Int z => negb (z =? 0)%Z end.

Definition string_truthy (s : string) : bool :=
  match s with EmptyString => false | String _ _ => true end.

(** ToBoolean *)
Definition truthy (v : Val) : bool :=
  match v with
  | Undefined | Null => false
  | Bool b => b
  | Num n => number_truthy n
  | Str s => string_truthy s
  | Arr _ | Obj _ => true
  end.

(** [a || b] *)
Definition or (a b : Val) : Val := if truthy a then a else b.

(** [String(v)]; an array joins its items with commas, printing [null]
    and [undefined] items as nothing. *)
Fixpoint toString (v : Val) : string :=
  match v with
  | Undefined => "undefined"
  | Null => "null"
  | Bool true => "true"
  | Bool false => "false"
  | Num n => number_toString n
  | Str s => s
  | Arr items =>
      (fix join (l : list Val) : string :=
         match l with
         | [] => ""
         | x :: r =>
             let sx := match x with
                       | Undefined | Null => ""
                       | _ => toString x
                       end in
             match r with
             | [] => sx
             | _ :: _ => sx ++ "," ++ join r
             end
         end) items
  | Obj _ => "[object Object]"
  end.

(** [new Error(v)]: the message is [String(v)], empty when [v] is
    [undefined]. *)
Definition new_Error (v : Val) : Error :=
  mkError "Error" (match v with Undefined => "" | _ => toString v end).

Definition TypeError_read (of_what key : string) : Error :=
  mkError "TypeError"
    ("Cannot read properties of " ++ of_what ++ " (reading '" ++ key ++ "')").

Fixpoint lookup (k : string) (props : list (string * Val)) : Val :=
  match props with
  | [] => Undefined
  | (k', v) :: rest => if String.eqb k k' then v else lookup k rest
  end.

(** [v.k] for the member names the actions read ([data], [id],
    [attributes], [state], [errors], [detail], [message]); none of them
    is a member of a built-in prototype, so every value other than an
    object answers [undefined], and [null] and [undefined] throw. *)
Definition get (v : Val) (k : string) : Error + Val :=
  match v with
  | Undefined => inl (TypeError_read "undefined" k)
  | Null => inl (TypeError_read "null" k)
  | Obj props => inr (lookup k props)
  | Bool _ | Num _ | Str _ | Arr _ => inr Undefined
  end.

(** [v[i]] *)
Definition get_index (v : Val) (i : nat) : Error + Val :=
  let key := string_of_Z (Z.of_nat i) in
  match v with
  | Undefined => inl (TypeError_read "undefined" key)
  | Null => inl (TypeError_read "null" key)
  | Arr items => inr (nth i items Undefined)
  | Str s => inr (match String.get i s with
                  | Some c => Str (String c EmptyString)
                  | None => Undefined
                  end)
  | Obj props => inr (lookup key props)
  | Bool _ | Num _ => inr Undefined
  end.

(** [v?.k] *)
Definition opt_get (v : Val) (k : string) : Val :=
  match v with
  | Undefined | Null => Undefined
  | _ => match get v k with inr x => x | inl _ => Undefined end
  end.

End Js.

(** ** Base64, as [Buffer.prototype.toString("base64")] produces it

    The standard alphabet of RFC 4648 with [=] padding. *)

Module Base64.

Local Open Scope N_scope.

Definition alphabet : list ascii :=
  list_ascii_of_string
    "ABCDEFGHIJKLMNOPQRSTUVWXYZabcdefghijklmnopqrstuvwxyz0123456789+/".

Definition pad : ascii := "="%char.

Definition char_of_sextet (n : N) : ascii := nth (N.to_nat n) alphabet pad.

Fixpoint index_in (c : ascii) (l : list ascii) (i : N) : option N :=
  match l with
  | [] => None
  | x :: r => if Ascii.eqb c x then Some i else index_in c r (N.succ i)
  end.

Definition sextet_of_char (c : ascii) : option N := index_in c alphabet 0%N.

Fixpoint encode (bs : list byte) : string :=
  match bs with
  | [] => ""
  | [a] =>
      let a := Byte.to_N a in
      String (char_of_sextet (a / 4))
        (String (char_of_sextet ((a mod 4) * 16))
           (String pad (String pad "")))
  | [a; b] =>
      let a := Byte.to_N a in
      let b := Byte.to_N b in
      String (char_of_sextet (a / 4))
        (String (char_of_sextet ((a mod 4) * 16 + b / 16))
           (String (char_of_sextet ((b mod 16) * 4))
              (String pad "")))
  | a :: b :: c :: rest =>
      let a := Byte.to_N a in
      let b := Byte.to_N b in
      let c := Byte.to_N c in
      String (char_of_sextet (a / 4))
        (String (char_of_sextet ((a mod 4) * 16 + b / 16))
           (String (char_of_sextet ((b mod 16) * 4 + c / 64))
              (String (char_of_sextet (c mod 64)) (encode rest))))
  end.

(** The 64 six-bit values. *)
Definition sextets : list N := map N.of_nat (seq 0 64).

Definition bind_opt {A B} (o : option A) (f : A -> option B) : option B :=
  match o with Some a => f a | None => None end.

(** The decoder of the round-trip law: four characters give three bytes,
    and a last group padded with one or two [=] gives two or one. *)
Fixpoint decode (s : string) : option (list byte) :=
  match s with
  | EmptyString => Some []
  | String c1 (String c2 (String c3 (String c4 rest))) =>
      bind_opt (sextet_of_char c1) (fun s1 =>
      bind_opt (sextet_of_char c2) (fun s2 =>
      if Ascii.eqb c4 pad then
        match rest with
        | EmptyString =>
            if Ascii.eqb c3 pad then
              bind_opt (Byte.of_N (s1 * 4 + s2 / 16)) (fun a => Some [a])
            else
              bind_opt (sextet_of_char c3) (fun s3 =>
              bind_opt (Byte.of_N (s1 * 4 + s2 / 16)) (fun a =>
              bind_opt (Byte.of_N ((s2 mod 16) * 16 + s3 / 4)) (fun b =>
              Some [a; b])))
        | String _ _ => None
        end
      else
        bind_opt (sextet_of_char c3) (fun s3 =>
        bind_opt (sextet_of_char c4) (fun s4 =>
        bind_opt (Byte.of_N (s1 * 4 + s2 / 16)) (fun a =>
        bind_opt (Byte.of_N ((s2 mod 16) * 16 + s3 / 4)) (fun b =>
        bind_opt (Byte.of_N ((s3 mod 4) * 64 + s4)) (fun c =>
        bind_opt (decode rest) (fun bs =>
        Some (a :: b :: c :: bs)))))))))
  | _ => None
  end.

End Base64.

(** ** The collaborators and the trace of their calls *)

Definition Headers : Type := list (string * string).

(** A [URL] object: the string it was built from and the entries appended
    to its [searchParams], in order.  [toString] serialises them in this
    order behind the [?]. *)
Record URL : Type := mkURL {
  href : string;
  searchParams : list (string * string)
}.

(** [url.searchParams.append(k, v)] *)
Definition append (u : URL) (k v : string) : URL :=
  mkURL (href u) (searchParams u ++ [(k, v)]).

(** The arguments of one [fetch] call; [body] is the document handed to
    [JSON.stringify], when there is one. *)
Record Request : Type := mkRequest {
  url : URL;
  method : string;
  headers : Headers;
  body : option Js.Val
}.

(** A [Response]: [json] and [arrayBuffer] are what the promises of
    [response.json()] and [response.arrayBuffer()] settle to, a rejection
    on the left. *)
Record Response : Type := mkResponse {
  status : Z;
  statusText : string;
  json : Js.Error + Js.Val;
  arrayBuffer : Js.Error + list byte
}.

(** [response.ok] *)
Definition ok (r : Response) : bool :=
  ((200 <=? status r) && (status r <=? 299))%Z.

Inductive Event : Type :=
| EvFetch (r : Request)
| EvRevalidatePath (path : string)
| EvConsoleError (label : option string) (e : Js.Error).

Definition Trace : Type := list Event.

(** How an action ends: it returns, it throws past its caller, or
    [redirect] takes control away. *)
Inductive Outcome (A : Type) : Type :=
| Returned (a : A)
| Thrown (e : Js.Error)
| Redirected (path : string).

Arguments Returned {A} a.
Arguments Thrown {A} e.
Arguments Redirected {A} path.

Definition Action (A : Type) : Type := Trace -> Outcome A * Trace.

Definition ret {A} (a : A) : Action A := fun t => (Returned a, t).

Definition bind {A B} (m : Action A) (k : A -> Action B) : Action B :=
  fun t =>
    match m t with
    | (Returned a, t') => k a t'
    | (Thrown e, t') => (Thrown e, t')
    | (Redirected p, t') => (Redirected p, t')
    end.

Notation "x <- m ;; k" := (bind m (fun x => k))
  (at level 61, m at next level, right associativity).
Notation "m ;;; k" := (bind m (fun _ => k))
  (at level 61, right associativity).

Definition throw {A} (e : Js.Error) : Action A := fun t => (Thrown e, t).

Definition emit (ev : Event) : Action unit :=
  fun t => (Returned tt, (t ++ [ev])%list).

(** [await p] for a promise that is already settled *)
Definition await {A} (p : Js.Error + A) : Action A :=
  match p with inl e => throw e | inr a => ret a end.

(** [try { m } catch (error) { h error }]; a redirect is not caught
    (none happens inside a [try] in this file). *)
Definition try_catch {A} (m : Action A) (h : Js.Error -> Action A) : Action A :=
  fun t =>
    match m t with
    | (Thrown e, t') => h e t'
    | r => r
    end.

Definition redirect {A} (path : string) : Action A :=
  fun t => (Redirected path, t).

Definition revalidatePath (path : string) : Action unit :=
  emit (EvRevalidatePath path).

Definition console_error (label : option string) (e : Js.Error) : Action unit :=
  emit (EvConsoleError label e).

(** The imports from [@/lib], taken as total functions, and what lies
    outside the actions.  [URL_canParse] is the verdict of the platform's
    URL parser on a string, what [URL.canParse(s)] answers.  [remote] is
    what the promise of [fetch] settles to for a request, a response or,
    on the left, the rejection of a transport failure. *)
Record Env : Type := mkEnv {
  apiBaseUrl : string;
  URL_canParse : string -> bool;
  getAuthHeaders : bool -> Headers;
  getErrorMessage : Js.Error -> string;
  parseStringify : Js.Val -> Js.Val;
  remote : Request -> Js.Error + Response
}.

(** [new URL(s)]: the URL built from [s], or a [TypeError] when [s] does
    not parse as an absolute URL. *)
Definition new_URL (env : Env) (s : string) : Action URL :=
  if URL_canParse env s then ret (mkURL s [])
  else throw (Js.mkError "TypeError" "Invalid URL").

(** A [FormData] holding text fields. *)
Definition FormData : Type := list (string * string).

(** [formData.get(k)]: the first entry of that name, [None] for [null]. *)
Fixpoint formData_get (fd : FormData) (k : string) : option string :=
  match fd with
  | [] => None
  | (k', v) :: rest => if String.eqb k k' then Some v else formData_get rest k
  end.

(** A form entry inside a template literal or a document. *)
Definition entry_text (e : option string) : string :=
  match e with None => "null" | Some s => s end.

Definition entry_val (e : option string) : Js.Val :=
  match e with None => Js.Null | Some s => Js.Str s end.

Definition entry_truthy (e : option string) : bool :=
  match e with None => false | Some s => Js.string_truthy s end.

(** The argument object of [getScans]; [None] is a property left out, for
    which the default of the destructuring pattern stands in. *)
Record GetScansArgs : Type := mkGetScansArgs {
  page : option Js.Number;
  query : option string;
  sort : option string;
  filters : option (list (string * Js.Val));
  pageSize : option Js.Number;
  fields : option (list (string * Js.Val));
  include : option string
}.

Definition default {A} (d : A) (o : option A) : A :=
  match o with Some a => a | None => d end.

Definition append_if (c : bool) (u : URL) (k v : string) : URL :=
  if c then append u k v else u.

(** ** The actions of scans.ts *)

Section Actions.

Variable env : Env.

(** [await fetch(url.toString(), init)] *)
Definition fetch (r : Request) : Action Response :=
  emit (EvFetch r) ;;; await (remote env r).

Definition obj_error (e : Js.Error) : Js.Val :=
  Js.Obj [("error", Js.Str (getErrorMessage env e))].

(** The entries [getScans] appends to its URL, in the order of its
    statements. *)
Definition getScans_params (url : URL) (page : Js.Number)
    (query sort : string) (filters : list (string * Js.Val))
    (pageSize : Js.Number) (fields : list (string * Js.Val))
    (include : string) : URL :=
  let url := append_if (Js.number_truthy page) url
               "page[number]" (Js.number_toString page) in
  let url := append_if (Js.number_truthy pageSize) url
               "page[size]" (Js.number_toString pageSize) in
  let url := append_if (Js.string_truthy query) url "filter[search]" query in
  let url := append_if (Js.string_truthy sort) url "sort" sort in
  let url := append_if (Js.string_truthy include) url "include" include in
  let url := fold_left
               (fun u kv => append u ("fields[" ++ fst kv ++ "]")
                              (Js.toString (snd kv)))
               fields url in
  let url := fold_left
               (fun u kv => append u (fst kv) (Js.toString (snd kv)))
               filters url in
  url.

(** The URL [getScans] fetches, when its base parses. *)
Definition getScans_url (page : Js.Number) (query sort : string)
    (filters : list (string * Js.Val)) (pageSize : Js.Number)
    (fields : list (string * Js.Val)) (include : string) : URL :=
  getScans_params (mkURL (apiBaseUrl env ++ "/scans") []) page query sort
    filters pageSize fields include.

Definition getScans (a : GetScansArgs) : Action Js.Val :=
  let page := default (Js.Int 1) (page a) in
  let query := default "" (query a) in
  let sort := default "" (sort a) in
  let filters := default [] (filters a) in
  let pageSize := default (Js.Int 10) (pageSize a) in
  let fields := default [] (fields a) in
  let include := default "" (include a) in
  let headers := getAuthHeaders env false in
  if Js.isNaN page || Js.ltb page 1 then redirect "/scans"
  else
    url <- new_URL env (apiBaseUrl env ++ "/scans") ;;
    let url :=
      getScans_params url page query sort filters pageSize fields include in
    try_catch
      (response <- fetch (mkRequest url "GET" headers None) ;;
       data <- await (json response) ;;
       let parsedData := parseStringify env data in
       revalidatePath "/scans" ;;;
       ret parsedData)
      (fun error =>
         console_error (Some "Error fetching scans:") error ;;;
         ret Js.Undefined).

Definition getScansByState : Action Js.Val :=
  let headers := getAuthHeaders env false in
  url <- new_URL env (apiBaseUrl env ++ "/scans") ;;
  let url := append url "fields[scans]" "state" in
  try_catch
    (response <- fetch (mkRequest url "GET" headers None) ;;
     (if negb (ok response) then
        try_catch
          (errorData <- await (json response) ;;
           throw (Js.new_Error
                    (Js.or (Js.opt_get errorData "message")
                       (Js.Str "Failed to fetch scans by state"))))
          (fun _ =>
             throw (Js.new_Error (Js.Str "Failed to fetch scans by state")))
      else ret tt) ;;;
     data <- await (json response) ;;
     ret (parseStringify env data))
    (fun error =>
       console_error (Some "Error fetching scans by state:") error ;;;
       ret Js.Undefined).

Definition getScan (scanId : string) : Action Js.Val :=
  let headers := getAuthHeaders env false in
  url <- new_URL env (apiBaseUrl env ++ "/scans/" ++ scanId) ;;
  try_catch
    (scan <- fetch (mkRequest url "GET" headers None) ;;
     data <- await (json scan) ;;
     let parsedData := parseStringify env data in
     ret parsedData)
    (fun error => ret (obj_error error)).

Definition scanOnDemand_body (providerId : string) (scanName : option string)
    : Js.Val :=
  Js.Obj
    [("data",
      Js.Obj
        [("type", Js.Str "scans");
         ("attributes",
          match scanName with
          | Some n => Js.Obj [("name", Js.Str n)]
          | None => Js.Obj []
          end);
         ("relationships",
          Js.Obj
            [("provider",
              Js.Obj
                [("data",
                  Js.Obj [("type", Js.Str "providers");
                          ("id", Js.Str providerId)])])])])].

(** [errorData.errors[0].detail] *)
Definition errors_0_detail (errorData : Js.Val) : Js.Error + Js.Val :=
  match Js.get errorData "errors" with
  | inl e => inl e
  | inr errors =>
      match Js.get_index errors 0 with
      | inl e => inl e
      | inr first => Js.get first "detail"
      end
  end.

Definition scanOnDemand (formData : FormData) : Action Js.Val :=
  let headers := getAuthHeaders env true in
  let providerId := formData_get formData "providerId" in
  (* [formData.get("scanName") || undefined] *)
  let scanName :=
    match formData_get formData "scanName" with
    | Some n => if Js.string_truthy n then Some n else None
    | None => None
    end in
  match providerId with
  | None => ret (Js.Obj [("error", Js.Str "Provider ID is required")])
  | Some pid =>
      if negb (Js.string_truthy pid) then
        ret (Js.Obj [("error", Js.Str "Provider ID is required")])
      else
        url <- new_URL env (apiBaseUrl env ++ "/scans") ;;
        try_catch
          (let requestBody := scanOnDemand_body pid scanName in
           response <- fetch (mkRequest url "POST" headers (Some requestBody)) ;;
           if negb (ok response) then
             errorData <- await (json response) ;;
             detail <- await (errors_0_detail errorData) ;;
             ret (Js.Obj [("success", Js.Bool false); ("error", detail)])
           else
             data <- await (json response) ;;
             revalidatePath "/scans" ;;;
             ret (parseStringify env data))
          (fun error =>
             console_error (Some "Error starting scan:") error ;;;
             ret (obj_error error))
  end.

Definition scheduleDaily_body (providerId : option string) : Js.Val :=
  Js.Obj
    [("data",
      Js.Obj
        [("type", Js.Str "daily-schedules");
         ("attributes", Js.Obj [("provider_id", entry_val providerId)])])].

Definition scheduleDaily (formData : FormData) : Action Js.Val :=
  let headers := getAuthHeaders env true in
  let providerId := formData_get formData "providerId" in
  url <- new_URL env (apiBaseUrl env ++ "/schedules/daily") ;;
  try_catch
    (response <- fetch (mkRequest url "POST" headers
                          (Some (scheduleDaily_body providerId))) ;;
     (if negb (ok response) then
        throw (Js.new_Error
                 (Js.Str ("Failed to schedule daily: " ++ statusText response)))
      else ret tt) ;;;
     data <- await (json response) ;;
     revalidatePath "/scans" ;;;
     ret (parseStringify env data))
    (fun error =>
       console_error None error ;;;
       ret (obj_error error)).

Definition updateScan_body (scanId scanName : option string) : Js.Val :=
  Js.Obj
    [("data",
      Js.Obj
        [("type", Js.Str "scans");
         ("id", entry_val scanId);
         ("attributes", Js.Obj [("name", entry_val scanName)])])].

Definition updateScan (formData : FormData) : Action Js.Val :=
  let headers := getAuthHeaders env true in
  let scanId := formData_get formData "scanId" in
  let scanName := formData_get formData "scanName" in
  url <- new_URL env (apiBaseUrl env ++ "/scans/" ++ entry_text scanId) ;;
  try_catch
    (response <- fetch (mkRequest url "PATCH" headers
                          (Some (updateScan_body scanId scanName))) ;;
     data <- await (json response) ;;
     revalidatePath "/scans" ;;;
     ret (parseStringify env data))
    (fun error =>
       console_error None error ;;;
       ret (obj_error error)).

Definition getExportsZip (scanId : string) : Action Js.Val :=
  let headers := getAuthHeaders env false in
  url <- new_URL env (apiBaseUrl env ++ "/scans/" ++ scanId ++ "/report") ;;
  try_catch
    (response <- fetch (mkRequest url "GET" headers None) ;;
     if (status response =? 202)%Z then
       json <- await (json response) ;;
       let taskId := Js.opt_get (Js.opt_get json "data") "id" in
       let state :=
         Js.opt_get (Js.opt_get (Js.opt_get json "data") "attributes")
           "state" in
       ret (Js.Obj [("pending", Js.Bool true);
                    ("state", state);
                    ("taskId", taskId)])
     else
       (if negb (ok response) then
          errorData <- await (json response) ;;
          throw (Js.new_Error
                   (Js.or
                      (Js.opt_get (Js.opt_get errorData "errors") "detail")
                      (Js.Str "Unable to fetch scan report. Contact support if the issue continues.")))
        else ret tt) ;;;
       arrayBuffer <- await (arrayBuffer response) ;;
       let base64 := Base64.encode arrayBuffer in
       ret (Js.Obj [("success", Js.Bool true);
                    ("data", Js.Str base64);
                    ("filename",
                     Js.Str ("scan-" ++ scanId ++ "-report.zip"))]))
    (fun error => ret (obj_error error)).

Definition getComplianceCsv (scanId complianceId : string) : Action Js.Val :=
  let headers := getAuthHeaders env false in
  url <- new_URL env (apiBaseUrl env ++ "/scans/" ++ scanId
                        ++ "/compliance/" ++ complianceId) ;;
  try_catch
    (response <- fetch (mkRequest url "GET" headers None) ;;
     if (status response =? 202)%Z then
       json <- await (json response) ;;
       let taskId := Js.opt_get (Js.opt_get json "data") "id" in
       let state :=
         Js.opt_get (Js.opt_get (Js.opt_get json "data") "attributes")
           "state" in
       ret (Js.Obj [("pending", Js.Bool true);
                    ("state", state);
                    ("taskId", taskId)])
     else
       (if negb (ok response) then
          errorData <- await (json response) ;;
          throw (Js.new_Error
                   (Js.or
                      (Js.opt_get (Js.opt_get errorData "errors") "detail")
                      (Js.Str "Unable to retrieve compliance report. Contact support if the issue continues.")))
        else ret tt) ;;;
       arrayBuffer <- await (arrayBuffer response) ;;
       let base64 := Base64.encode arrayBuffer in
       ret (Js.Obj [("success", Js.Bool true);
                    ("data", Js.Str base64);
                    ("filename",
                     Js.Str ("scan-" ++ scanId ++ "-compliance-"
                               ++ complianceId ++ ".csv"))]))
    (fun error => ret (obj_error error)).

End Actions.

(** Running an action from the empty trace. *)
Definition run {A} (m : Action A) : Outcome A * Trace := m [].

(** ** The request each action sends *)

Definition getScans_request (env : Env) (a : GetScansArgs) : Request :=
  mkRequest
    (getScans_url env (default (Js.Int 1) (page a)) (default "" (query a))
       (default "" (sort a)) (default [] (filters a))
       (default (Js.Int 10) (pageSize a)) (default [] (fields a))
       (default "" (include a)))
    "GET" (getAuthHeaders env false) None.

Definition getScansByState_request (env : Env) : Request :=
  mkRequest (mkURL (apiBaseUrl env ++ "/scans") [("fields[scans]", "state")])
    "GET" (getAuthHeaders env false) None.


Definition scanOnDemand_request (env : Env) (formData : FormData) : Request :=
  mkRequest (mkURL (apiBaseUrl env ++ "/scans") []) "POST"
    (getAuthHeaders env true)
    (Some (scanOnDemand_body
             (entry_text (formData_get formData "providerId"))
             (match formData_get formData "scanName" with
              | Some n => if Js.string_truthy n then Some n else None
              | None => None
              end))).

Definition scheduleDaily_request (env : Env) (formData : FormData) : Request :=
  mkRequest (mkURL (apiBaseUrl env ++ "/schedules/daily") []) "POST"
    (getAuthHeaders env true)
    (Some (scheduleDaily_body (formData_get formData "providerId"))).

Definition updateScan_request (env : Env) (formData : FormData) : Request :=
  mkRequest
    (mkURL (apiBaseUrl env ++ "/scans/"
                ++ entry_text (formData_get formData "scanId")) [])
    "PATCH" (getAuthHeaders env true)
    (Some (updateScan_body (formData_get formData "scanId")
             (formData_get formData "scanName"))).

Definition getExportsZip_request (env : Env) (scanId : string) : Request :=
  mkRequest (mkURL (apiBaseUrl env ++ "/scans/" ++ scanId ++ "/report") [])
    "GET" (getAuthHeaders env false) None.

Definition getComplianceCsv_request (env : Env) (scanId complianceId : string)
    : Request :=
  mkRequest
    (mkURL (apiBaseUrl env ++ "/scans/" ++ scanId
                ++ "/compliance/" ++ complianceId) [])
    "GET" (getAuthHeaders env false) None.

(** A form that supplies a provider identifier; an empty text field does
    not. *)
Definition provider_supplied (formData : FormData) : Prop :=
  entry_truthy (formData_get formData "providerId") = true.

(** ** What the spec asks of the query string and of the results *)

(** A scalar field of a list query: emitted only when it is not empty. *)
Definition optional_param (k v : string) : list (string * string) :=
  match v with EmptyString => [] | String _ _ => [(k, v)] end.

(** The scalar parameters in the order of the query-builder contract. *)
Definition scalar_params (p s : Z) (search sort include : string)
    : list (string * string) :=
  [("page[number]", Js.string_of_Z p); ("page[size]", Js.string_of_Z s)]
    ++ optional_param "filter[search]" search
    ++ optional_param "sort" sort
    ++ optional_param "include" include.

(** The whole query: the scalars, one [fields[<type>]] entry per sparse
    fieldset, then one entry per filter under its own key. *)
Definition query_in_order (p s : Z) (search sort include : string)
    (sparseFields filters : list (string * Js.Val)) : list (string * string) :=
  scalar_params p s search sort include
    ++ map (fun kv => ("fields[" ++ fst kv ++ "]", Js.toString (snd kv)))
         sparseFields
    ++ map (fun kv => (fst kv, Js.toString (snd kv))) filters.

(** The query of a call of [getScans] whose page is [p] and whose page size
    is [s], the defaults standing in for what the caller left out. *)
Definition scalars_of (a : GetScansArgs) (p s : Z) : list (string * string) :=
  scalar_params p s (default "" (query a)) (default "" (sort a))
    (default "" (include a)).

Definition query_of (a : GetScansArgs) (p s : Z) : list (string * string) :=
  query_in_order p s (default "" (query a)) (default "" (sort a))
    (default "" (include a)) (default [] (fields a)) (default [] (filters a)).

(** A page number the list action refuses: not a number, or below 1. *)
Definition invalid_page (n : Js.Number) : Prop :=
  match n with Js.NaN => True | Js.Int z => (z < 1)%Z end.

Definition is_string (v : Js.Val) : Prop :=
  match v with Js.Str _ => True | _ => False end.

(** What the optional chains [doc?.data?.id] and
    [doc?.data?.attributes?.state] find in a document. *)
Definition data_id (doc : Js.Val) : Js.Val :=
  Js.opt_get (Js.opt_get doc "data") "id".

Definition data_attributes_state (doc : Js.Val) : Js.Val :=
  Js.opt_get (Js.opt_get (Js.opt_get doc "data") "attributes") "state".

Definition nullish (v : Js.Val) : Prop := v = Js.Undefined \/ v = Js.Null.

(** [ArtifactResult] as the data model words it: one variant, with every
    field of the variant present as a string. *)
Definition fully_populated (v : Js.Val) : Prop :=
  (exists content filename,
      v = Js.Obj [("success", Js.Bool true);
                  ("data", Js.Str content);
                  ("filename", Js.Str filename)])
  \/ (exists taskId state,
        v = Js.Obj [("pending", Js.Bool true);
                    ("state", Js.Str state);
                    ("taskId", Js.Str taskId)])
  \/ (exists message, v = Js.Obj [("error", Js.Str message)]).

(** The three shapes the artifact actions do return: the fields of a
    pending result are whatever the optional chains found. *)
Definition artifact_shape (v : Js.Val) : Prop :=
  (exists content filename,
      v = Js.Obj [("success", Js.Bool true);
                  ("data", Js.Str content);
                  ("filename", Js.Str filename)])
  \/ (exists state taskId,
        v = Js.Obj [("pending", Js.Bool true);
                    ("state", state);
                    ("taskId", taskId)])
  \/ (exists message, v = Js.Obj [("error", Js.Str message)]).


(** What [scanOnDemand] returns for an answer outside the 2xx range: the
    value at [errors[0].detail] next to [success: false], or the message of
    the error thrown on the way to it. *)
Definition scanOnDemand_failure (env : Env) (resp : Response) : Js.Val :=
  match json resp with
  | inl e => obj_error env e
  | inr errorData =>
      match errors_0_detail errorData with
      | inl e => obj_error env e
      | inr detail => Js.Obj [("success", Js.Bool false); ("error", detail)]
      end
  end.

(** What [scheduleDaily] returns for such an answer: a message made of the
    status text, the body unread. *)
Definition scheduleDaily_failure (env : Env) (resp : Response) : Js.Val :=
  obj_error env
    (Js.new_Error (Js.Str ("Failed to schedule daily: " ++ statusText resp))).




Fixpoint count_revalidations (t : Trace) : nat :=
  match t with
  | [] => 0
  | EvRevalidatePath _ :: r => S (count_revalidations r)
  | _ :: r => count_revalidations r
  end.

Fixpoint count_fetches (t : Trace) : nat :=
  match t with
  | [] => 0
  | EvFetch _ :: r => S (count_fetches r)
  | _ :: r => count_fetches r
  end.

(** ** Conditions on the remote side used by the further properties *)

(** The URL of the request parses, and the request was answered inside the
    2xx range with a body that parses. *)
Definition accepted (env : Env) (req : Request) : bool :=
  URL_canParse env (href (url req))
  && match remote env req with
     | inl _ => false
     | inr resp =>
         ok resp && match json resp with inl _ => false | inr _ => true end
     end.

(** The guard of [getScans] on its page argument. *)
Definition page_refused (a : GetScansArgs) : bool :=
  Js.isNaN (default (Js.Int 1) (page a))
  || Js.ltb (default (Js.Int 1) (page a)) 1.

(** A page size that [if (pageSize)] takes for absent: 0 or [NaN]. *)
Definition falsy_number (n : Js.Number) : Prop :=
  match n with Js.NaN => True | Js.Int z => z = 0%Z end.

(** The first request of a trace. *)
Fixpoint first_request (t : Trace) : option Request :=
  match t with
  | [] => None
  | EvFetch r :: _ => Some r
  | _ :: rest => first_request rest
  end.

(** ** An instance of the collaborators, to evaluate the actions *)

Module Sample.

(** Modelled from the spec: [getErrorMessage] is imported from [@/lib],
    which is not among the sources; the spec has a failure surface "the
    transport-level error message", the message of the error caught. *)
Definition getErrorMessage (e : Js.Error) : string := Js.message e.

(** Modelled from the spec: [parseStringify] is imported from [@/lib],
    which is not among the sources; the spec has it deep-copy the parsed
    document with no validation, so the copy equals the document. *)
Definition parseStringify (v : Js.Val) : Js.Val := v.

Definition apiBaseUrl : string := "http://api.test/api/v1".

(** A stand-in for the URL parser, enough for the strings used here: it
    accepts what starts with [http://] followed by something. *)
Definition URL_canParse (s : string) : bool :=
  String.prefix "http://" s && (7 <? String.length s)%nat.

Definition getAuthHeaders (contentType : bool) : Headers :=
  ("Authorization", "Bearer t")
    :: (if contentType
        then [("Content-Type", "application/vnd.api+json")]
        else []).

Definition env (remote : Request -> Js.Error + Response) : Env :=
  mkEnv apiBaseUrl URL_canParse getAuthHeaders getErrorMessage parseStringify
    remote.


(** A remote side that answers every request with [r]. *)
Definition answers (r : Response) : Env := env (fun _ => inr r).

(** A remote side that cannot be reached. *)
Definition unreachable : Env :=
  env (fun _ => inl (Js.mkError "TypeError" "fetch failed")).

Definition json_response (st : Z) (text : string) (doc : Js.Val) : Response :=
  mkResponse st text (inr doc) (inr []).

(** [{"errors":[{"detail":"not found"}]}] *)
Definition not_found_body : Js.Val :=
  Js.Obj [("errors", Js.Arr [Js.Obj [("detail", Js.Str "not found")]])].

Definition not_found : Response :=
  json_response 404 "Not Found" not_found_body.

(** [{"errors":[{"detail": d}]}], the error document of the remote API *)
Definition errors_doc (detail : string) : Js.Val :=
  Js.Obj [("errors", Js.Arr [Js.Obj [("detail", Js.Str detail)]])].

Definition update_form : FormData :=
  [("scanId", "scan1"); ("scanName", "weekly")].

Definition provider_form : FormData :=
  [("providerId", "p1"); ("scanName", "weekly")].

Definition bad_request : Response :=
  json_response 400 "Bad Request" (errors_doc "bad").

(** A 202 whose body is [{}] *)
Definition accepted_empty : Response := json_response 202 "Accepted" (Js.Obj []).

(** [{"data":{"id":"t1","attributes":{"state":"running"}}}] *)
Definition task_doc : Js.Val :=
  Js.Obj [("data", Js.Obj [("id", Js.Str "t1");
                           ("attributes",
                            Js.Obj [("state", Js.Str "running")])])].

Definition zip_bytes : list byte := [x50; x4b; x03; x04; x00; xff; x10].

Definition zip_response : Response :=
  mkResponse 200 "OK"
    (inl (Js.mkError "SyntaxError" "Unexpected token 'P'")) (inr zip_bytes).

Definition query : GetScansArgs :=
  mkGetScansArgs (Some (Js.Int 2)) (Some "aws") (Some "-inserted_at")
    (Some [("filter[state]", Js.Str "completed")])
    (Some (Js.Int 25)) (Some [("scans", Js.Str "name,state")]) None.

(** [{"data":{"type":"scans","id":"scan1"}}] *)
Definition scan_doc : Js.Val :=
  Js.Obj [("data", Js.Obj [("type", Js.Str "scans"); ("id", Js.Str "scan1")])].

Definition created : Response := json_response 201 "Created" scan_doc.

Definition found : Response := json_response 200 "OK" scan_doc.

(** A 500 whose body is [{"message":"boom"}] *)
Definition server_error : Response :=
  json_response 500 "Internal Server Error"
    (Js.Obj [("message", Js.Str "boom")]).

(** A 403 whose [errors] member is an object:
    [{"errors":{"detail":"forbidden"}}] *)
Definition forbidden : Response :=
  json_response 403 "Forbidden"
    (Js.Obj [("errors", Js.Obj [("detail", Js.Str "forbidden")])]).


Definition syntax_error : Js.Error :=
  Js.mkError "SyntaxError" "Unexpected end of JSON input".

(** A 202 whose body is not JSON *)
Definition accepted_unparsable : Response :=
  mkResponse 202 "Accepted" (inl syntax_error) (inr []).

(** A 200 whose body is not JSON *)
Definition ok_unparsable : Response :=
  mkResponse 200 "OK" (inl syntax_error) (inr []).

Definition csv_bytes : list byte := [x61; x2c; x62; x0a].

Definition csv_response : Response :=
  mkResponse 200 "OK" (inl syntax_error) (inr csv_bytes).

(** A form with a provider and a blank scan name *)
Definition blank_name_form : FormData :=
  [("providerId", "p1"); ("scanName", "")].

(** A list query whose sparse fieldset and filter have empty values *)
Definition empty_valued_query : GetScansArgs :=
  mkGetScansArgs (Some (Js.Int 1)) None None
    (Some [("filter[state]", Js.Str "")])
    (Some (Js.Int 10)) (Some [("scans", Js.Str "")]) None.

(** A list query with a page size of 0 *)
Definition zero_size_query : GetScansArgs :=
  mkGetScansArgs (Some (Js.Int 3)) None (Some "name") None
    (Some (Js.Int 0)) None None.

End Sample.

(** * Properties *)

(** ** The monad and the transport *)

Lemma fetch_resolves env r resp t :
  remote env r = inr resp ->
  fetch env r t = (Returned resp, (t ++ [EvFetch r])%list).
Proof. intros H. unfold fetch, bind, emit, await. now rewrite H. Qed.

Lemma fetch_rejects env r e t :
  remote env r = inl e ->
  fetch env r t = (Thrown e, (t ++ [EvFetch r])%list).
Proof. intros H. unfold fetch, bind, emit, await. now rewrite H. Qed.

Lemma try_catch_returned {A} (m : Action A) h t a t' :
  m t = (Returned a, t') -> try_catch m h t = (Returned a, t').
Proof. intros H. unfold try_catch. now rewrite H. Qed.

Lemma try_catch_thrown {A} (m : Action A) h t e t' :
  m t = (Thrown e, t') -> try_catch m h t = h e t'.
Proof. intros H. unfold try_catch. now rewrite H. Qed.

Lemma new_URL_parses env s t :
  URL_canParse env s = true -> new_URL env s t = (Returned (mkURL s []), t).
Proof. intros H. unfold new_URL. now rewrite H. Qed.

Lemma new_URL_throws env s t :
  URL_canParse env s = false ->
  new_URL env s t = (Thrown (Js.mkError "TypeError" "Invalid URL"), t).
Proof. intros H. unfold new_URL. now rewrite H. Qed.

(** Unfolds the plumbing of an action applied to a trace. *)
Ltac step :=
  unfold run, try_catch, bind, fetch, new_URL, emit, await, throw, ret,
    redirect, revalidatePath, console_error, obj_error; simpl.

(** The same for an action whose URL parses, by hypothesis [Hu]. *)
Ltac step_parsed Hu :=
  unfold run, bind, new_URL; simpl in Hu |- *; rewrite Hu; step.

(** ** The query string *)

Lemma fold_left_append (fk fv : string * Js.Val -> string) l u :
  fold_left (fun u kv => append u (fk kv) (fv kv)) l u
  = mkURL (href u) (searchParams u ++ map (fun kv => (fk kv, fv kv)) l).
Proof.
  revert u. induction l as [|kv l IH]; intros u; simpl.
  - rewrite app_nil_r. now destruct u.
  - rewrite IH. unfold append; simpl. now rewrite <- app_assoc.
Qed.

Lemma append_if_string u k v :
  append_if (Js.string_truthy v) u k v
  = mkURL (href u) (searchParams u ++ optional_param k v).
Proof.
  destruct v; simpl.
  - rewrite app_nil_r. now destruct u.
  - reflexivity.
Qed.

Lemma string_of_Z_not_empty z : Js.string_of_Z z <> "".
Proof.
  unfold Js.string_of_Z, NilZero.string_of_int.
  destruct (Z.to_int z) as [d|d]; [|discriminate].
  destruct d; simpl; discriminate.
Qed.

Lemma optional_param_not_empty k v k' v' :
  In (k', v') (optional_param k v) -> v' <> "".
Proof.
  destruct v; simpl; [tauto|].
  intros [H|[]]. inversion H; subst. discriminate.
Qed.

Lemma getScans_url_in_order env p s query sort filters fields include :
  (p <> 0)%Z -> (s <> 0)%Z ->
  getScans_url env (Js.Int p) query sort filters (Js.Int s) fields include
  = mkURL (apiBaseUrl env ++ "/scans")
      (query_in_order p s query sort include fields filters).
Proof.
  intros Hp Hs. unfold getScans_url, getScans_params.
  rewrite !fold_left_append, !append_if_string. simpl.
  destruct (Z.eqb_spec p 0) as [|_]; [contradiction|].
  destruct (Z.eqb_spec s 0) as [|_]; [contradiction|].
  simpl. unfold query_in_order, scalar_params. simpl.
  now rewrite <- !app_assoc.
Qed.

Lemma query_has_entries p s search sort include sparseFields filters :
  (forall kv, In kv sparseFields ->
              In ("fields[" ++ fst kv ++ "]", Js.toString (snd kv))
                (query_in_order p s search sort include sparseFields filters))
  /\ (forall kv, In kv filters ->
                 In (fst kv, Js.toString (snd kv))
                   (query_in_order p s search sort include sparseFields
                      filters)).
Proof.
  unfold query_in_order. split; intros kv H; rewrite !in_app_iff.
  - right; left.
    exact (in_map (fun kv => ("fields[" ++ fst kv ++ "]",
                              Js.toString (snd kv))) _ _ H).
  - right; right.
    exact (in_map (fun kv => (fst kv, Js.toString (snd kv))) _ _ H).
Qed.

(** C6, as stated, fails: a sparse fieldset and a filter whose values are
    empty are emitted all the same, as [fields[scans]=] and
    [filter[state]=], keys with an empty value. *)
Lemma empty_valued_entries_are_emitted :
  first_request
    (snd (run (getScans Sample.unreachable Sample.empty_valued_query)))
  = Some (mkRequest
            (mkURL "http://api.test/api/v1/scans"
               [("page[number]", "1"); ("page[size]", "10");
                ("fields[scans]", ""); ("filter[state]", "")])
            "GET" (Sample.getAuthHeaders false) None).
Proof. reflexivity. Qed.

(** C6, amended.  For a list query with a page of at least 1 and a positive
    page size, and a base URL that parses, [getScans] sends one request
    whose query parameters are, in this order: [page[number]],
    [page[size]], [filter[search]] when the search is not empty, [sort]
    when not empty, [include] when not empty, one [fields[<type>]] per
    sparse fieldset, one entry per filter under its own key.  The page and
    the page size are always there; a search, sort or include that is
    absent or empty is not emitted; every sparse fieldset and every filter
    is emitted whatever its value, an empty value included. *)
Theorem getScans_query_in_order env a p s :
  URL_canParse env (apiBaseUrl env ++ "/scans") = true ->
  default (Js.Int 1) (page a) = Js.Int p ->
  (1 <= p <= Js.MAX_SAFE_INTEGER)%Z ->
  default (Js.Int 10) (pageSize a) = Js.Int s ->
  (1 <= s <= Js.MAX_SAFE_INTEGER)%Z ->
  (exists out rest,
      run (getScans env a)
      = (out,
         EvFetch (mkRequest (mkURL (apiBaseUrl env ++ "/scans") (query_of a p s))
                    "GET" (getAuthHeaders env false) None) :: rest))
  /\ (exists fs, query_of a p s
                 = ([("page[number]", Js.string_of_Z p);
                     ("page[size]", Js.string_of_Z s)] ++ fs)%list)
  /\ (forall k v, In (k, v) (scalars_of a p s) -> v <> "")
  /\ (forall kv, In kv (default [] (fields a)) ->
                 In ("fields[" ++ fst kv ++ "]", Js.toString (snd kv))
                   (query_of a p s))
  /\ (forall kv, In kv (default [] (filters a)) ->
                 In (fst kv, Js.toString (snd kv)) (query_of a p s)).
Proof.
  intros Hu Hp Hpr Hs Hsr. split; [|split; [|split]].
  - unfold getScans. rewrite Hp, Hs. simpl.
    destruct (Z.ltb_spec p 1) as [|_]; [lia|].
    step_parsed Hu.
    fold (getScans_url env (Js.Int p) (default "" (query a))
            (default "" (sort a)) (default [] (filters a)) (Js.Int s)
            (default [] (fields a)) (default "" (include a))).
    rewrite getScans_url_in_order by lia. fold (query_of a p s).
    destruct (remote env _) as [e|resp]; simpl; [eauto|].
    destruct (json resp); simpl; eauto.
  - eexists. unfold query_of, query_in_order, scalar_params.
    rewrite <- app_assoc. reflexivity.
  - intros k v. unfold scalars_of, scalar_params. rewrite !in_app_iff. simpl.
    intros [[H|[H|[]]]|[H|[H|H]]];
      try (inversion H; subst; apply string_of_Z_not_empty);
      eauto using optional_param_not_empty.
  - apply query_has_entries.
Qed.

Lemma getScans_query_in_order_witness :
  exists out rest,
    run (getScans Sample.unreachable Sample.query)
    = (out,
       EvFetch
         (mkRequest
            (mkURL "http://api.test/api/v1/scans"
               [("page[number]", "2"); ("page[size]", "25");
                ("filter[search]", "aws"); ("sort", "-inserted_at");
                ("fields[scans]", "name,state");
                ("filter[state]", "completed")])
            "GET" [("Authorization", "Bearer t")] None) :: rest).
Proof.
  apply (getScans_query_in_order Sample.unreachable Sample.query 2 25);
    try reflexivity; unfold Js.MAX_SAFE_INTEGER; lia.
Defined.

(** C8.  A page that is not a number, or is below 1, makes [getScans]
    hand control to the redirect to ["/scans"]: nothing is returned and the
    transport is not called. *)
Theorem getScans_invalid_page_redirects env a n :
  page a = Some n ->
  invalid_page n ->
  run (getScans env a) = (Redirected "/scans", [])
  /\ count_fetches (snd (run (getScans env a))) = 0.
Proof.
  intros Hp Hn.
  assert (H : run (getScans env a) = (Redirected "/scans", [])).
  { unfold getScans. rewrite Hp. simpl.
    destruct n as [|z]; simpl in *; [reflexivity|].
    destruct (Z.ltb_spec z 1); [reflexivity|lia]. }
  now rewrite H.
Qed.

Lemma getScans_invalid_page_redirects_witness :
  run (getScans Sample.unreachable
         (mkGetScansArgs (Some (Js.Int 0)) None None None None None None))
  = (Redirected "/scans", [])
  /\ run (getScans Sample.unreachable
            (mkGetScansArgs (Some Js.NaN) None None None None None None))
     = (Redirected "/scans", []).
Proof.
  split.
  - apply (getScans_invalid_page_redirects Sample.unreachable _ (Js.Int 0));
      [reflexivity | simpl; lia].
  - apply (getScans_invalid_page_redirects Sample.unreachable _ Js.NaN);
      [reflexivity | exact I].
Defined.

(** C9.  When the form carries no provider identifier, [scanOnDemand]
    returns [{error: "Provider ID is required"}] and the transport is never
    called: the check comes before the request. *)
Theorem scanOnDemand_requires_provider env formData :
  ~ provider_supplied formData ->
  run (scanOnDemand env formData)
  = (Returned (Js.Obj [("error", Js.Str "Provider ID is required")]), []).
Proof.
  unfold provider_supplied, scanOnDemand, run. intros H.
  destruct (formData_get formData "providerId") as [pid|]; simpl in *.
  - destruct (Js.string_truthy pid); [congruence | reflexivity].
  - reflexivity.
Qed.

Lemma scanOnDemand_requires_provider_witness :
  run (scanOnDemand Sample.unreachable [("scanName", "nightly")])
  = (Returned (Js.Obj [("error", Js.Str "Provider ID is required")]), []).
Proof.
  apply (scanOnDemand_requires_provider Sample.unreachable).
  unfold provider_supplied. simpl. discriminate.
Defined.

(** C10.  [getScans] mutates nothing, yet whenever its request is answered
    and the body parses, whatever the status, it calls
    [revalidatePath("/scans")] once, after the fetch, before returning the
    document. *)
Theorem getScans_revalidates env a resp data :
  URL_canParse env (apiBaseUrl env ++ "/scans") = true ->
  ~ invalid_page (default (Js.Int 1) (page a)) ->
  remote env (getScans_request env a) = inr resp ->
  json resp = inr data ->
  run (getScans env a)
  = (Returned (parseStringify env data),
     [EvFetch (getScans_request env a); EvRevalidatePath "/scans"]).
Proof.
  intros Hu Hp Hr Hj. unfold getScans.
  destruct (default (Js.Int 1) (page a)) as [|z] eqn:E; simpl in Hp.
  - tauto.
  - simpl. destruct (Z.ltb_spec z 1); [lia|].
    unfold getScans_request, getScans_url in Hr. rewrite E in Hr.
    step_parsed Hu. rewrite Hr. simpl. rewrite Hj. simpl.
    unfold getScans_request, getScans_url. now rewrite E.
Qed.

Lemma getScans_revalidates_witness :
  snd (run (getScans (Sample.answers Sample.not_found) Sample.query))
  = [EvFetch (getScans_request (Sample.answers Sample.not_found) Sample.query);
     EvRevalidatePath "/scans"].
Proof.
  rewrite (getScans_revalidates (Sample.answers Sample.not_found) Sample.query
             Sample.not_found Sample.not_found_body).
  - reflexivity.
  - reflexivity.
  - simpl. lia.
  - reflexivity.
  - reflexivity.
Defined.

(** ** Base64 *)

Lemma list_ind3 {A} (P : list A -> Prop) :
  P [] ->
  (forall a, P [a]) ->
  (forall a b, P [a; b]) ->
  (forall a b c l, P l -> P (a :: b :: c :: l)) ->
  forall l, P l.
Proof.
  intros H0 H1 H2 H3.
  fix IH 1. intros [|a [|b [|c l]]];
    [apply H0 | apply H1 | apply H2 | apply H3, IH].
Qed.

Lemma in_sextets n : (n < 64)%N -> In n Base64.sextets.
Proof.
  intros H. unfold Base64.sextets. rewrite <- (N2Nat.id n).
  apply in_map, in_seq. lia.
Qed.

Lemma sextet_of_char_of_sextet n :
  (n < 64)%N ->
  Base64.sextet_of_char (Base64.char_of_sextet n) = Some n
  /\ Ascii.eqb (Base64.char_of_sextet n) Base64.pad = false.
Proof.
  intros H. apply in_sextets in H. revert n H. apply Forall_forall.
  unfold Base64.sextets. simpl. repeat constructor.
Qed.

Lemma byte_of_N_to_N (x : byte) n : n = Byte.to_N x -> Byte.of_N n = Some x.
Proof. intros ->. apply Byte.of_to_N. Qed.

(** Linear arithmetic with division by constants. *)
Ltac div_lia := zify; Z.to_euclidean_division_equations; lia.

Ltac sextet_steps :=
  repeat match goal with
    | |- context [Base64.sextet_of_char (Base64.char_of_sextet ?n)] =>
        let H := fresh in
        destruct (sextet_of_char_of_sextet n) as [H _];
        [ div_lia | rewrite H; clear H; cbn [Base64.bind_opt] ]
    | |- context [Ascii.eqb (Base64.char_of_sextet ?n) Base64.pad] =>
        let H := fresh in
        destruct (sextet_of_char_of_sextet n) as [_ H];
        [ div_lia | rewrite H; clear H ]
    | |- context [Byte.of_N ?n] =>
        match n with
        | Byte.to_N _ => fail 1
        | _ => idtac
        end;
        match goal with
        | x : byte |- _ =>
            rewrite (byte_of_N_to_N x n) by div_lia; cbn [Base64.bind_opt]
        end
    end.

Lemma decode_encode (bs : list byte) :
  Base64.decode (Base64.encode bs) = Some bs.
Proof.
  induction bs as [|a|a b|a b c l IH] using list_ind3.
  - reflexivity.
  - pose proof (Byte.to_N_bounded a).
    cbn [Base64.encode Base64.decode].
    sextet_steps. reflexivity.
  - pose proof (Byte.to_N_bounded a). pose proof (Byte.to_N_bounded b).
    cbn [Base64.encode Base64.decode].
    sextet_steps. reflexivity.
  - pose proof (Byte.to_N_bounded a). pose proof (Byte.to_N_bounded b).
    pose proof (Byte.to_N_bounded c).
    cbn [Base64.encode Base64.decode].
    sextet_steps. rewrite IH. reflexivity.
Qed.

(** ** Artifact retrieval *)

(** C7.  A 200 answer with body [b] makes [getExportsZip] return, after
    its single request, the object [{success: true, data, filename}] whose
    [data] is the base64 text of [b] and whose [filename] is
    ["scan-<scanId>-report.zip"]; decoding the [data] member of the
    returned object gives [b] back. *)
Theorem getExportsZip_ready_roundtrip env scanId resp b :
  URL_canParse env (apiBaseUrl env ++ "/scans/" ++ scanId ++ "/report") = true ->
  remote env (getExportsZip_request env scanId) = inr resp ->
  status resp = 200%Z ->
  arrayBuffer resp = inr b ->
  exists v content,
    run (getExportsZip env scanId)
    = (Returned v, [EvFetch (getExportsZip_request env scanId)])
    /\ v = Js.Obj [("success", Js.Bool true);
                   ("data", Js.Str (Base64.encode b));
                   ("filename", Js.Str ("scan-" ++ scanId ++ "-report.zip"))]
    /\ Js.get v "data" = inr (Js.Str content)
    /\ Base64.decode content = Some b.
Proof.
  intros Hu Hr Hs Hb.
  exists (Js.Obj [("success", Js.Bool true);
                  ("data", Js.Str (Base64.encode b));
                  ("filename", Js.Str ("scan-" ++ scanId ++ "-report.zip"))]),
    (Base64.encode b).
  split; [|split; [reflexivity|split; [reflexivity|apply decode_encode]]].
  unfold getExportsZip, getExportsZip_request in *. step_parsed Hu.
  simpl in Hr. rewrite Hr. simpl. unfold ok. rewrite Hs. simpl. now rewrite Hb.
Qed.

Lemma getExportsZip_ready_roundtrip_witness :
  exists v content,
    run (getExportsZip (Sample.answers Sample.zip_response) "scan1")
    = (Returned v,
       [EvFetch (getExportsZip_request (Sample.answers Sample.zip_response)
                   "scan1")])
    /\ v = Js.Obj [("success", Js.Bool true);
                   ("data", Js.Str "UEsDBAD/EA==");
                   ("filename", Js.Str "scan-scan1-report.zip")]
    /\ Js.get v "data" = inr (Js.Str content)
    /\ Base64.decode content = Some Sample.zip_bytes.
Proof.
  apply (getExportsZip_ready_roundtrip (Sample.answers Sample.zip_response)
           "scan1" Sample.zip_response Sample.zip_bytes);
    reflexivity.
Defined.

Lemma errors_array_has_no_detail items :
  Js.opt_get (Js.opt_get (Js.Obj [("errors", Js.Arr items)]) "errors") "detail"
  = Js.Undefined.
Proof. reflexivity. Qed.

(** C1.  Evaluation at the failing input: for a 404 whose body is
    [{"errors":[{"detail": d}]}], both artifact actions read
    [errors.detail], find nothing on the array and return their fixed
    fallback message; the detail [d] is lost. *)
Theorem artifact_actions_lose_errors_0_detail d :
  fst (run (getExportsZip
              (Sample.answers
                 (Sample.json_response 404 "Not Found" (Sample.errors_doc d)))
              "scan1"))
  = Returned
      (Js.Obj [("error",
                Js.Str "Unable to fetch scan report. Contact support if the issue continues.")])
  /\ fst (run (getComplianceCsv
                 (Sample.answers
                    (Sample.json_response 404 "Not Found" (Sample.errors_doc d)))
                 "scan1" "cis_1.4_aws"))
     = Returned
         (Js.Obj [("error",
                   Js.Str "Unable to retrieve compliance report. Contact support if the issue continues.")])
  /\ errors_0_detail (Sample.errors_doc d) = inr (Js.Str d).
Proof. repeat split. Qed.

(** ** Cache invalidation of the mutations *)

Lemma updateScan_revalidates_any_status env formData resp data :
  URL_canParse env
    (apiBaseUrl env ++ "/scans/" ++ entry_text (formData_get formData "scanId"))
  = true ->
  remote env (updateScan_request env formData) = inr resp ->
  json resp = inr data ->
  run (updateScan env formData)
  = (Returned (parseStringify env data),
     [EvFetch (updateScan_request env formData); EvRevalidatePath "/scans"]).
Proof.
  intros Hu Hr Hj. unfold updateScan, updateScan_request in *.
  step_parsed Hu. simpl in Hr. rewrite Hr. simpl. now rewrite Hj.
Qed.

Lemma updateScan_transport_failure env formData e :
  URL_canParse env
    (apiBaseUrl env ++ "/scans/" ++ entry_text (formData_get formData "scanId"))
  = true ->
  remote env (updateScan_request env formData) = inl e ->
  run (updateScan env formData)
  = (Returned (obj_error env e),
     [EvFetch (updateScan_request env formData); EvConsoleError None e]).
Proof.
  intros Hu Hr. unfold updateScan, updateScan_request in *.
  step_parsed Hu. simpl in Hr. now rewrite Hr.
Qed.

(** C2.  Evaluation at the failing input: [updateScan] does not look at
    [response.ok]; a 404 answer with a JSON body is returned as if it were
    the updated document, and [revalidatePath("/scans")] is called once. *)
Theorem updateScan_revalidates_on_failed_update :
  ok Sample.not_found = false
  /\ run (updateScan (Sample.answers Sample.not_found) Sample.update_form)
     = (Returned Sample.not_found_body,
        [EvFetch (updateScan_request (Sample.answers Sample.not_found)
                    Sample.update_form);
         EvRevalidatePath "/scans"])
  /\ count_revalidations
       (snd (run (updateScan (Sample.answers Sample.not_found)
                    Sample.update_form))) = 1.
Proof. repeat split. Qed.

(** ** Error values of the mutations *)

(** C4, as stated, fails: the same 400 answer with body
    [{"errors":[{"detail":"bad"}]}] comes back from [scanOnDemand] as
    [{success: false, error: "bad"}] and from [scheduleDaily] as
    [{error: "Failed to schedule daily: Bad Request"}]. *)
Lemma mutation_errors_not_uniform :
  fst (run (scanOnDemand (Sample.answers Sample.bad_request)
              Sample.provider_form))
  = Returned (Js.Obj [("success", Js.Bool false); ("error", Js.Str "bad")])
  /\ fst (run (scheduleDaily (Sample.answers Sample.bad_request)
                 Sample.provider_form))
     = Returned
         (Js.Obj [("error", Js.Str "Failed to schedule daily: Bad Request")])
  /\ fst (run (scanOnDemand (Sample.answers Sample.bad_request)
                 Sample.provider_form))
     <> fst (run (scheduleDaily (Sample.answers Sample.bad_request)
                    Sample.provider_form)).
Proof. repeat split. discriminate. Qed.

(** C4, amended.  For an answer outside the 2xx range, [scanOnDemand]
    returns [{success: false, error: errors[0].detail}] of the error body,
    or [{error: getErrorMessage(e)}] when the body cannot be read that far;
    [scheduleDaily] leaves the body unread and returns
    [{error: getErrorMessage(Error("Failed to schedule daily: " +
    statusText))}].  Neither invalidates the scans view. *)
Theorem mutation_failure_values env formData resp :
  ok resp = false ->
  (provider_supplied formData ->
   URL_canParse env (apiBaseUrl env ++ "/scans") = true ->
   remote env (scanOnDemand_request env formData) = inr resp ->
   fst (run (scanOnDemand env formData))
   = Returned (scanOnDemand_failure env resp)
   /\ count_revalidations (snd (run (scanOnDemand env formData))) = 0)
  /\ (URL_canParse env (apiBaseUrl env ++ "/schedules/daily") = true ->
      remote env (scheduleDaily_request env formData) = inr resp ->
      fst (run (scheduleDaily env formData))
      = Returned (scheduleDaily_failure env resp)
      /\ count_revalidations (snd (run (scheduleDaily env formData))) = 0).
Proof.
  intros Hok. split.
  - unfold provider_supplied, scanOnDemand, scanOnDemand_request,
      scanOnDemand_failure.
    destruct (formData_get formData "providerId") as [pid|]; simpl;
      [|discriminate].
    intros Hp Hu Hr. rewrite Hp. step_parsed Hu. simpl in Hr. rewrite Hr.
    simpl. rewrite Hok. simpl.
    destruct (json resp) as [e|errorData]; simpl; [auto|].
    destruct (errors_0_detail errorData); simpl; auto.
  - unfold scheduleDaily, scheduleDaily_request, scheduleDaily_failure.
    intros Hu Hr. step_parsed Hu. simpl in Hr. rewrite Hr. simpl.
    rewrite Hok. simpl. auto.
Qed.

Lemma mutation_failure_values_witness :
  (fst (run (scanOnDemand (Sample.answers Sample.bad_request)
               Sample.provider_form))
   = Returned (scanOnDemand_failure (Sample.answers Sample.bad_request)
                 Sample.bad_request)
   /\ count_revalidations
        (snd (run (scanOnDemand (Sample.answers Sample.bad_request)
                     Sample.provider_form))) = 0)
  /\ (fst (run (scheduleDaily (Sample.answers Sample.bad_request)
                  Sample.provider_form))
      = Returned (scheduleDaily_failure (Sample.answers Sample.bad_request)
                    Sample.bad_request)
      /\ count_revalidations
           (snd (run (scheduleDaily (Sample.answers Sample.bad_request)
                        Sample.provider_form))) = 0).
Proof.
  destruct (mutation_failure_values (Sample.answers Sample.bad_request)
              Sample.provider_form Sample.bad_request) as [H1 H2].
  - reflexivity.
  - split; [apply H1 | apply H2]; reflexivity.
Defined.

(** ** Shape of the artifact results *)

(** C5, as stated, fails: a 202 answer whose body is [{}] gives a pending
    result whose [taskId] and [state] are [undefined], not strings. *)
Lemma pending_without_task_fields :
  fst (run (getExportsZip (Sample.answers Sample.accepted_empty) "scan1"))
  = Returned (Js.Obj [("pending", Js.Bool true);
                      ("state", Js.Undefined);
                      ("taskId", Js.Undefined)])
  /\ ~ fully_populated
         (Js.Obj [("pending", Js.Bool true);
                  ("state", Js.Undefined);
                  ("taskId", Js.Undefined)]).
Proof.
  split; [reflexivity|].
  intros [(c & f & H)|[(t & s & H)|(m & H)]]; discriminate.
Qed.


Lemma getExportsZip_shape env scanId :
  URL_canParse env (apiBaseUrl env ++ "/scans/" ++ scanId ++ "/report") = true ->
  exists v, fst (run (getExportsZip env scanId)) = Returned v
            /\ artifact_shape v.
Proof.
  intros Hu. unfold getExportsZip, artifact_shape. step_parsed Hu.
  destruct (remote env _) as [e|resp]; simpl; [eauto 7|].
  destruct (status resp =? 202)%Z; simpl.
  - destruct (json resp); simpl; eauto 9.
  - destruct (ok resp); simpl.
    + destruct (arrayBuffer resp); simpl; eauto 9.
    + destruct (json resp); simpl; eauto 7.
Qed.

Lemma getComplianceCsv_shape env scanId complianceId :
  URL_canParse env
    (apiBaseUrl env ++ "/scans/" ++ scanId ++ "/compliance/" ++ complianceId)
  = true ->
  exists v, fst (run (getComplianceCsv env scanId complianceId)) = Returned v
            /\ artifact_shape v.
Proof.
  intros Hu. unfold getComplianceCsv, artifact_shape. step_parsed Hu.
  destruct (remote env _) as [e|resp]; simpl; [eauto 7|].
  destruct (status resp =? 202)%Z; simpl.
  - destruct (json resp); simpl; eauto 9.
  - destruct (ok resp); simpl.
    + destruct (arrayBuffer resp); simpl; eauto 9.
    + destruct (json resp); simpl; eauto 7.
Qed.

Lemma getExportsZip_accepted env scanId resp :
  URL_canParse env (apiBaseUrl env ++ "/scans/" ++ scanId ++ "/report") = true ->
  remote env (getExportsZip_request env scanId) = inr resp ->
  status resp = 202%Z ->
  run (getExportsZip env scanId)
  = (Returned match json resp with
              | inr doc =>
                  Js.Obj [("pending", Js.Bool true);
                          ("state", data_attributes_state doc);
                          ("taskId", data_id doc)]
              | inl e => Js.Obj [("error", Js.Str (getErrorMessage env e))]
              end,
     [EvFetch (getExportsZip_request env scanId)]).
Proof.
  intros Hu Hr Hs. unfold getExportsZip, getExportsZip_request in *.
  step_parsed Hu. simpl in Hr. rewrite Hr. simpl. rewrite Hs. simpl.
  destruct (json resp); reflexivity.
Qed.

Lemma getComplianceCsv_accepted env scanId complianceId resp :
  URL_canParse env
    (apiBaseUrl env ++ "/scans/" ++ scanId ++ "/compliance/" ++ complianceId)
  = true ->
  remote env (getComplianceCsv_request env scanId complianceId) = inr resp ->
  status resp = 202%Z ->
  run (getComplianceCsv env scanId complianceId)
  = (Returned match json resp with
              | inr doc =>
                  Js.Obj [("pending", Js.Bool true);
                          ("state", data_attributes_state doc);
                          ("taskId", data_id doc)]
              | inl e => Js.Obj [("error", Js.Str (getErrorMessage env e))]
              end,
     [EvFetch (getComplianceCsv_request env scanId complianceId)]).
Proof.
  intros Hu Hr Hs. unfold getComplianceCsv, getComplianceCsv_request in *.
  step_parsed Hu. simpl in Hr. rewrite Hr. simpl. rewrite Hs. simpl.
  destruct (json resp); reflexivity.
Qed.

Lemma missing_path_gives_undefined doc :
  (nullish doc \/ nullish (Js.opt_get doc "data") ->
   data_id doc = Js.Undefined /\ data_attributes_state doc = Js.Undefined)
  /\ (nullish (Js.opt_get (Js.opt_get doc "data") "attributes") ->
      data_attributes_state doc = Js.Undefined).
Proof.
  unfold nullish, data_id, data_attributes_state. split.
  - intros [[-> | ->]|[-> | ->]]; split; reflexivity.
  - intros [-> | ->]; reflexivity.
Qed.

(** C5, amended.  Every result of [getExportsZip] and [getComplianceCsv]
    is exactly one of [{success: true, data, filename}] with both strings,
    [{pending: true, state, taskId}] or [{error: message}].  For a 202
    answer whose body parses, the pending result carries what the optional
    chains [data.id] and [data.attributes.state] find in the body: both
    are strings when the body holds strings there and [undefined] when the
    path is missing; a 202 whose body does not parse gives
    [{error: message}]. *)
Theorem artifact_results_one_shape env scanId complianceId :
  (URL_canParse env (apiBaseUrl env ++ "/scans/" ++ scanId ++ "/report")
   = true ->
   (exists v, fst (run (getExportsZip env scanId)) = Returned v
              /\ artifact_shape v)
   /\ (forall resp,
         remote env (getExportsZip_request env scanId) = inr resp ->
         status resp = 202%Z ->
         fst (run (getExportsZip env scanId))
         = Returned
             match json resp with
             | inr doc =>
                 Js.Obj [("pending", Js.Bool true);
                         ("state", data_attributes_state doc);
                         ("taskId", data_id doc)]
             | inl e => Js.Obj [("error", Js.Str (getErrorMessage env e))]
             end))
  /\ (URL_canParse env
        (apiBaseUrl env ++ "/scans/" ++ scanId ++ "/compliance/"
           ++ complianceId) = true ->
      (exists v, fst (run (getComplianceCsv env scanId complianceId))
                 = Returned v
                 /\ artifact_shape v)
      /\ (forall resp,
            remote env (getComplianceCsv_request env scanId complianceId)
            = inr resp ->
            status resp = 202%Z ->
            fst (run (getComplianceCsv env scanId complianceId))
            = Returned
                match json resp with
                | inr doc =>
                    Js.Obj [("pending", Js.Bool true);
                            ("state", data_attributes_state doc);
                            ("taskId", data_id doc)]
                | inl e =>
                    Js.Obj [("error", Js.Str (getErrorMessage env e))]
                end))
  /\ (forall doc,
        (forall taskId state,
            data_id doc = Js.Str taskId ->
            data_attributes_state doc = Js.Str state ->
            fully_populated
              (Js.Obj [("pending", Js.Bool true);
                       ("state", data_attributes_state doc);
                       ("taskId", data_id doc)]))
        /\ (nullish doc \/ nullish (Js.opt_get doc "data") ->
            data_id doc = Js.Undefined
            /\ data_attributes_state doc = Js.Undefined)
        /\ (nullish (Js.opt_get (Js.opt_get doc "data") "attributes") ->
            data_attributes_state doc = Js.Undefined))
  /\ (forall content filename state taskId message,
        Js.Obj [("success", Js.Bool true);
                ("data", Js.Str content);
                ("filename", Js.Str filename)]
        <> Js.Obj [("pending", Js.Bool true);
                   ("state", state);
                   ("taskId", taskId)]
        /\ Js.Obj [("success", Js.Bool true);
                   ("data", Js.Str content);
                   ("filename", Js.Str filename)]
           <> Js.Obj [("error", Js.Str message)]
        /\ Js.Obj [("pending", Js.Bool true);
                   ("state", state);
                   ("taskId", taskId)]
           <> Js.Obj [("error", Js.Str message)]).
Proof.
  split; [|split; [|split]].
  - intros Hu. split; [now apply getExportsZip_shape|].
    intros resp Hr Hs. now rewrite (getExportsZip_accepted _ _ _ Hu Hr Hs).
  - intros Hu. split; [now apply getComplianceCsv_shape|].
    intros resp Hr Hs.
    now rewrite (getComplianceCsv_accepted _ _ _ _ Hu Hr Hs).
  - intros doc. split; [|apply missing_path_gives_undefined].
    intros taskId state Hi Hs. right; left. exists taskId, state.
    now rewrite Hi, Hs.
  - intros. repeat split; discriminate.
Qed.

Lemma artifact_results_one_shape_witness :
  fst (run (getExportsZip (Sample.answers Sample.accepted_unparsable) "scan1"))
  = Returned (Js.Obj [("error", Js.Str "Unexpected end of JSON input")])
  /\ fst (run (getComplianceCsv
                 (Sample.answers
                    (Sample.json_response 202 "Accepted" Sample.task_doc))
                 "scan1" "cis"))
     = Returned (Js.Obj [("pending", Js.Bool true);
                         ("state", Js.Str "running");
                         ("taskId", Js.Str "t1")]).
Proof.
  split.
  - destruct (artifact_results_one_shape
                (Sample.answers Sample.accepted_unparsable) "scan1" "cis")
      as [H _].
    destruct H as [_ H]; [reflexivity|].
    apply (H Sample.accepted_unparsable); reflexivity.
  - destruct (artifact_results_one_shape
                (Sample.answers
                   (Sample.json_response 202 "Accepted" Sample.task_doc))
                "scan1" "cis")
      as [_ [H _]].
    destruct H as [_ H]; [reflexivity|].
    apply (H (Sample.json_response 202 "Accepted" Sample.task_doc));
      reflexivity.
Defined.

(** The pending example of the spec: a 202 with body
    [{"data":{"id":"t1","attributes":{"state":"running"}}}]. *)
Example getExportsZip_pending_example :
  fst (run (getExportsZip
              (Sample.answers
                 (Sample.json_response 202 "Accepted" Sample.task_doc))
              "scan1"))
  = Returned (Js.Obj [("pending", Js.Bool true);
                      ("state", Js.Str "running");
                      ("taskId", Js.Str "t1")]).
Proof. reflexivity. Qed.

(** ** Failures at the boundary of the actions *)

















(** * Further properties of the actions *)

(** Case analysis as in [settle], leaving the goals to the caller. *)
Ltac branches :=
  repeat (simpl;
          match goal with
          | |- context [URL_canParse ?env ?s] => destruct (URL_canParse env s)
          | |- context [remote ?env ?r] => destruct (remote env r)
          | |- context [json ?r] => destruct (json r)
          | |- context [arrayBuffer ?r] => destruct (arrayBuffer r)
          | |- context [ok ?r] => destruct (ok r)
          | |- context [(status ?r =? 202)%Z] => destruct (status r =? 202)%Z
          | |- context [errors_0_detail ?d] => destruct (errors_0_detail d)
          end);
  simpl.

(** ** getScansByState and getScan *)

(** X1.  For every answer outside the 2xx range, [getScansByState] returns
    [undefined] and logs [Error("Failed to fetch scans by state")]: the
    [message] of the error body, parsed or not, never reaches the log or
    the caller, because the inner [catch] replaces the error thrown inside
    the inner [try]. *)
Theorem getScansByState_not_ok env resp :
  URL_canParse env (apiBaseUrl env ++ "/scans") = true ->
  remote env (getScansByState_request env) = inr resp ->
  ok resp = false ->
  run (getScansByState env)
  = (Returned Js.Undefined,
     [EvFetch (getScansByState_request env);
      EvConsoleError (Some "Error fetching scans by state:")
        (Js.mkError "Error" "Failed to fetch scans by state")]).
Proof.
  intros Hu Hr Hok. unfold getScansByState, getScansByState_request in *.
  unfold append. step_parsed Hu. simpl in Hr. rewrite Hr. simpl.
  rewrite Hok. simpl. destruct (json resp); reflexivity.
Qed.

Lemma getScansByState_not_ok_witness :
  run (getScansByState (Sample.answers Sample.server_error))
  = (Returned Js.Undefined,
     [EvFetch (getScansByState_request (Sample.answers Sample.server_error));
      EvConsoleError (Some "Error fetching scans by state:")
        (Js.mkError "Error" "Failed to fetch scans by state")]).
Proof.
  apply (getScansByState_not_ok (Sample.answers Sample.server_error)
           Sample.server_error); reflexivity.
Defined.

(** X2.  For a 2xx answer whose body parses, [getScansByState] returns the
    parsed document after a single GET of [/scans] whose only query
    parameter is [fields[scans]=state]; when the body does not parse it
    logs the rejection and returns [undefined]. *)
Theorem getScansByState_ok env resp :
  URL_canParse env (apiBaseUrl env ++ "/scans") = true ->
  remote env (getScansByState_request env) = inr resp ->
  ok resp = true ->
  run (getScansByState env)
  = match json resp with
    | inr data =>
        (Returned (parseStringify env data),
         [EvFetch (getScansByState_request env)])
    | inl e =>
        (Returned Js.Undefined,
         [EvFetch (getScansByState_request env);
          EvConsoleError (Some "Error fetching scans by state:") e])
    end
  /\ searchParams (url (getScansByState_request env))
     = [("fields[scans]", "state")].
Proof.
  intros Hu Hr Hok. split; [|reflexivity].
  unfold getScansByState, getScansByState_request in *.
  unfold append. step_parsed Hu. simpl in Hr. rewrite Hr. simpl.
  rewrite Hok. simpl. destruct (json resp); reflexivity.
Qed.

Lemma getScansByState_ok_witness :
  run (getScansByState (Sample.answers Sample.found))
  = (Returned Sample.scan_doc,
     [EvFetch (getScansByState_request (Sample.answers Sample.found))])
  /\ searchParams (url (getScansByState_request (Sample.answers Sample.found)))
     = [("fields[scans]", "state")].
Proof.
  apply (getScansByState_ok (Sample.answers Sample.found) Sample.found);
    reflexivity.
Defined.



(** ** Requests and invalidations, counted *)

(** X4.  No action retries: a call whose URL parses sends exactly one
    request, and a call whose URL does not parse sends none; [getScans] on
    a refused page and [scanOnDemand] without a provider send none
    either. *)
Theorem one_request_per_call env :
  (forall a, count_fetches (snd (run (getScans env a)))
             = if page_refused a then 0
               else if URL_canParse env (apiBaseUrl env ++ "/scans")
                    then 1 else 0)
  /\ count_fetches (snd (run (getScansByState env)))
     = (if URL_canParse env (apiBaseUrl env ++ "/scans") then 1 else 0)
  /\ (forall scanId,
        count_fetches (snd (run (getScan env scanId)))
        = if URL_canParse env (apiBaseUrl env ++ "/scans/" ++ scanId)
          then 1 else 0)
  /\ (forall formData,
        count_fetches (snd (run (scanOnDemand env formData)))
        = if entry_truthy (formData_get formData "providerId")
          then if URL_canParse env (apiBaseUrl env ++ "/scans")
               then 1 else 0
          else 0)
  /\ (forall formData,
        count_fetches (snd (run (scheduleDaily env formData)))
        = if URL_canParse env (apiBaseUrl env ++ "/schedules/daily")
          then 1 else 0)
  /\ (forall formData,
        count_fetches (snd (run (updateScan env formData)))
        = if URL_canParse env
               (apiBaseUrl env ++ "/scans/"
                  ++ entry_text (formData_get formData "scanId"))
          then 1 else 0)
  /\ (forall scanId,
        count_fetches (snd (run (getExportsZip env scanId)))
        = if URL_canParse env
               (apiBaseUrl env ++ "/scans/" ++ scanId ++ "/report")
          then 1 else 0)
  /\ (forall scanId complianceId,
        count_fetches (snd (run (getComplianceCsv env scanId complianceId)))
        = if URL_canParse env
               (apiBaseUrl env ++ "/scans/" ++ scanId ++ "/compliance/"
                  ++ complianceId)
          then 1 else 0).
Proof.
  repeat split; intros.
  - unfold getScans, page_refused.
    destruct (Js.isNaN _ || Js.ltb _ 1); [reflexivity|].
    step. branches; reflexivity.
  - unfold getScansByState. step. branches; reflexivity.
  - unfold getScan. step. branches; reflexivity.
  - unfold scanOnDemand.
    destruct (formData_get formData "providerId") as [pid|]; [|reflexivity].
    simpl. destruct (Js.string_truthy pid); [|reflexivity].
    step. branches; reflexivity.
  - unfold scheduleDaily. step. branches; reflexivity.
  - unfold updateScan. step. branches; reflexivity.
  - unfold getExportsZip. step. branches; reflexivity.
  - unfold getComplianceCsv. step. branches; reflexivity.
Qed.

(** X5.  The four reading actions other than [getScans] never invalidate
    the scans view, whatever the remote side answers. *)
Theorem reading_actions_never_revalidate env :
  count_revalidations (snd (run (getScansByState env))) = 0
  /\ (forall scanId,
        count_revalidations (snd (run (getScan env scanId))) = 0)
  /\ (forall scanId,
        count_revalidations (snd (run (getExportsZip env scanId))) = 0)
  /\ (forall scanId complianceId,
        count_revalidations
          (snd (run (getComplianceCsv env scanId complianceId))) = 0).
Proof.
  repeat split; intros.
  - unfold getScansByState. step. branches; reflexivity.
  - unfold getScan. step. branches; reflexivity.
  - unfold getExportsZip. step. branches; reflexivity.
  - unfold getComplianceCsv. step. branches; reflexivity.
Qed.

(** ** The mutations *)

(** X6.  With a provider supplied, a 2xx answer whose body parses makes
    [scanOnDemand] send one POST, then invalidate the scans view once, and
    return the parsed document. *)
Theorem scanOnDemand_success env formData resp data :
  provider_supplied formData ->
  URL_canParse env (apiBaseUrl env ++ "/scans") = true ->
  remote env (scanOnDemand_request env formData) = inr resp ->
  ok resp = true ->
  json resp = inr data ->
  run (scanOnDemand env formData)
  = (Returned (parseStringify env data),
     [EvFetch (scanOnDemand_request env formData);
      EvRevalidatePath "/scans"]).
Proof.
  unfold provider_supplied, scanOnDemand, scanOnDemand_request.
  destruct (formData_get formData "providerId") as [pid|]; simpl;
    [|discriminate].
  intros Hp Hu Hr Hok Hj. rewrite Hp. step_parsed Hu. simpl in Hr.
  rewrite Hr. simpl. rewrite Hok. simpl. now rewrite Hj.
Qed.

Lemma scanOnDemand_success_witness :
  run (scanOnDemand (Sample.answers Sample.created) Sample.provider_form)
  = (Returned Sample.scan_doc,
     [EvFetch (scanOnDemand_request (Sample.answers Sample.created)
                 Sample.provider_form);
      EvRevalidatePath "/scans"]).
Proof.
  apply (scanOnDemand_success (Sample.answers Sample.created)
           Sample.provider_form Sample.created Sample.scan_doc);
    reflexivity.
Defined.

(** X7.  A 2xx answer whose body parses makes [scheduleDaily] send one
    POST to [/schedules/daily], then invalidate the scans view once, and
    return the parsed document. *)
Theorem scheduleDaily_success env formData resp data :
  URL_canParse env (apiBaseUrl env ++ "/schedules/daily") = true ->
  remote env (scheduleDaily_request env formData) = inr resp ->
  ok resp = true ->
  json resp = inr data ->
  run (scheduleDaily env formData)
  = (Returned (parseStringify env data),
     [EvFetch (scheduleDaily_request env formData);
      EvRevalidatePath "/scans"]).
Proof.
  unfold scheduleDaily, scheduleDaily_request.
  intros Hu Hr Hok Hj. step_parsed Hu. simpl in Hr. rewrite Hr. simpl.
  rewrite Hok. simpl. now rewrite Hj.
Qed.

Lemma scheduleDaily_success_witness :
  run (scheduleDaily (Sample.answers Sample.created) Sample.provider_form)
  = (Returned Sample.scan_doc,
     [EvFetch (scheduleDaily_request (Sample.answers Sample.created)
                 Sample.provider_form);
      EvRevalidatePath "/scans"]).
Proof.
  apply (scheduleDaily_success (Sample.answers Sample.created)
           Sample.provider_form Sample.created Sample.scan_doc);
    reflexivity.
Defined.

(** X8.  [scanOnDemand] and [scheduleDaily] invalidate the scans view
    exactly once when the request was answered in the 2xx range with a
    body that parses (and, for [scanOnDemand], a provider was supplied),
    and not at all in every other case: a rejected fetch, a status outside
    2xx, an unreadable body. *)
Theorem mutations_revalidate_on_success_only env formData :
  count_revalidations (snd (run (scanOnDemand env formData)))
  = (if entry_truthy (formData_get formData "providerId")
        && accepted env (scanOnDemand_request env formData)
     then 1 else 0)
  /\ count_revalidations (snd (run (scheduleDaily env formData)))
     = (if accepted env (scheduleDaily_request env formData) then 1 else 0).
Proof.
  split.
  - unfold scanOnDemand, scanOnDemand_request, accepted.
    destruct (formData_get formData "providerId") as [pid|]; [|reflexivity].
    simpl. destruct (Js.string_truthy pid); [|reflexivity].
    step. branches; reflexivity.
  - unfold scheduleDaily, scheduleDaily_request, accepted.
    step. branches; reflexivity.
Qed.

(** X9.  [scheduleDaily] has no check on its input: when the form has no
    [providerId] it still sends the POST, with [provider_id: null] in the
    document. *)
Theorem scheduleDaily_without_provider env formData :
  URL_canParse env (apiBaseUrl env ++ "/schedules/daily") = true ->
  formData_get formData "providerId" = None ->
  first_request (snd (run (scheduleDaily env formData)))
  = Some (mkRequest (mkURL (apiBaseUrl env ++ "/schedules/daily") []) "POST"
            (getAuthHeaders env true)
            (Some (Js.Obj
                     [("data",
                       Js.Obj
                         [("type", Js.Str "daily-schedules");
                          ("attributes",
                           Js.Obj [("provider_id", Js.Null)])])]))).
Proof.
  intros Hu H. unfold scheduleDaily, scheduleDaily_body. rewrite H.
  step_parsed Hu. branches; reflexivity.
Qed.

Lemma scheduleDaily_without_provider_witness :
  first_request
    (snd (run (scheduleDaily Sample.unreachable Sample.update_form)))
  = Some (mkRequest (mkURL "http://api.test/api/v1/schedules/daily" []) "POST"
            (Sample.getAuthHeaders true)
            (Some (Js.Obj
                     [("data",
                       Js.Obj
                         [("type", Js.Str "daily-schedules");
                          ("attributes",
                           Js.Obj [("provider_id", Js.Null)])])]))).
Proof.
  apply (scheduleDaily_without_provider Sample.unreachable Sample.update_form);
    reflexivity.
Defined.

(** X10.  [updateScan] has no check on its input either: when the form has
    no [scanId] the PATCH goes to [<apiBaseUrl>/scans/null], the template
    literal printing [null], with [id: null] in the document. *)
Theorem updateScan_without_scanId env formData :
  URL_canParse env (apiBaseUrl env ++ "/scans/null") = true ->
  formData_get formData "scanId" = None ->
  first_request (snd (run (updateScan env formData)))
  = Some (mkRequest (mkURL (apiBaseUrl env ++ "/scans/null") []) "PATCH"
            (getAuthHeaders env true)
            (Some (Js.Obj
                     [("data",
                       Js.Obj
                         [("type", Js.Str "scans");
                          ("id", Js.Null);
                          ("attributes",
                           Js.Obj
                             [("name",
                               entry_val
                                 (formData_get formData "scanName"))])])]))).
Proof.
  intros Hu H. unfold updateScan, updateScan_body. rewrite H.
  step_parsed Hu. branches; reflexivity.
Qed.

Lemma updateScan_without_scanId_witness :
  first_request
    (snd (run (updateScan Sample.unreachable Sample.provider_form)))
  = Some (mkRequest (mkURL "http://api.test/api/v1/scans/null" []) "PATCH"
            (Sample.getAuthHeaders true)
            (Some (Js.Obj
                     [("data",
                       Js.Obj
                         [("type", Js.Str "scans");
                          ("id", Js.Null);
                          ("attributes",
                           Js.Obj [("name", Js.Str "weekly")])])]))).
Proof.
  apply (updateScan_without_scanId Sample.unreachable Sample.provider_form);
    reflexivity.
Defined.

(** X11.  A scan name that is missing or empty is left out of the document
    [scanOnDemand] posts: [attributes] is the empty object, not
    [{name: ""}] or [{name: null}]. *)
Theorem scanOnDemand_blank_name env formData pid :
  URL_canParse env (apiBaseUrl env ++ "/scans") = true ->
  formData_get formData "providerId" = Some pid ->
  Js.string_truthy pid = true ->
  formData_get formData "scanName" = None
  \/ formData_get formData "scanName" = Some "" ->
  first_request (snd (run (scanOnDemand env formData)))
  = Some (mkRequest (mkURL (apiBaseUrl env ++ "/scans") []) "POST"
            (getAuthHeaders env true)
            (Some (Js.Obj
                     [("data",
                       Js.Obj
                         [("type", Js.Str "scans");
                          ("attributes", Js.Obj []);
                          ("relationships",
                           Js.Obj
                             [("provider",
                               Js.Obj
                                 [("data",
                                   Js.Obj [("type", Js.Str "providers");
                                           ("id", Js.Str pid)])])])])]))).
Proof.
  intros Hu Hp Ht Hn. unfold scanOnDemand, scanOnDemand_body. rewrite Hp.
  simpl. rewrite Ht. simpl.
  destruct Hn as [Hn|Hn]; rewrite Hn; step_parsed Hu; branches; reflexivity.
Qed.

Lemma scanOnDemand_blank_name_witness :
  first_request
    (snd (run (scanOnDemand Sample.unreachable Sample.blank_name_form)))
  = Some (mkRequest (mkURL "http://api.test/api/v1/scans" []) "POST"
            (Sample.getAuthHeaders true)
            (Some (Js.Obj
                     [("data",
                       Js.Obj
                         [("type", Js.Str "scans");
                          ("attributes", Js.Obj []);
                          ("relationships",
                           Js.Obj
                             [("provider",
                               Js.Obj
                                 [("data",
                                   Js.Obj [("type", Js.Str "providers");
                                           ("id", Js.Str "p1")])])])])]))).
Proof.
  apply (scanOnDemand_blank_name Sample.unreachable Sample.blank_name_form
           "p1");
    [reflexivity | reflexivity | reflexivity | right; reflexivity].
Defined.



(** X13.  When the answer to [getScans] has a body that does not parse,
    the rejection is logged and [undefined] is returned; the scans view is
    not invalidated. *)
Theorem getScans_unparsable env a resp e :
  URL_canParse env (apiBaseUrl env ++ "/scans") = true ->
  page_refused a = false ->
  remote env (getScans_request env a) = inr resp ->
  json resp = inl e ->
  run (getScans env a)
  = (Returned Js.Undefined,
     [EvFetch (getScans_request env a);
      EvConsoleError (Some "Error fetching scans:") e]).
Proof.
  unfold page_refused, getScans, getScans_request, getScans_url.
  intros Hu Hp Hr Hj. rewrite Hp. step_parsed Hu. rewrite Hr. simpl.
  now rewrite Hj.
Qed.

Lemma getScans_unparsable_witness :
  run (getScans (Sample.answers Sample.ok_unparsable) Sample.query)
  = (Returned Js.Undefined,
     [EvFetch (getScans_request (Sample.answers Sample.ok_unparsable)
                 Sample.query);
      EvConsoleError (Some "Error fetching scans:") Sample.syntax_error]).
Proof.
  apply (getScans_unparsable (Sample.answers Sample.ok_unparsable)
           Sample.query Sample.ok_unparsable Sample.syntax_error);
    reflexivity.
Defined.

(** X14.  When the answer to [updateScan] has a body that does not parse,
    the rejection is logged and returned as [{error: getErrorMessage(e)}];
    the scans view is not invalidated. *)
Theorem updateScan_unparsable env formData resp e :
  URL_canParse env
    (apiBaseUrl env ++ "/scans/" ++ entry_text (formData_get formData "scanId"))
  = true ->
  remote env (updateScan_request env formData) = inr resp ->
  json resp = inl e ->
  run (updateScan env formData)
  = (Returned (obj_error env e),
     [EvFetch (updateScan_request env formData); EvConsoleError None e]).
Proof.
  unfold updateScan, updateScan_request.
  intros Hu Hr Hj. step_parsed Hu. simpl in Hr. rewrite Hr. simpl.
  now rewrite Hj.
Qed.

Lemma updateScan_unparsable_witness :
  run (updateScan (Sample.answers Sample.ok_unparsable) Sample.update_form)
  = (Returned (Js.Obj [("error", Js.Str "Unexpected end of JSON input")]),
     [EvFetch (updateScan_request (Sample.answers Sample.ok_unparsable)
                 Sample.update_form);
      EvConsoleError None Sample.syntax_error]).
Proof.
  apply (updateScan_unparsable (Sample.answers Sample.ok_unparsable)
           Sample.update_form Sample.ok_unparsable Sample.syntax_error);
    reflexivity.
Defined.

(** ** The artifact actions *)

(** X15.  For an answer in the 2xx range other than 202 with body [b],
    [getComplianceCsv] returns, after its single request, the object
    [{success: true, data, filename}] whose [data] is the base64 text of
    [b] and whose [filename] is
    ["scan-<scanId>-compliance-<complianceId>.csv"]; decoding the [data]
    member of the returned object gives [b] back. *)
Theorem getComplianceCsv_ready_roundtrip env scanId complianceId resp b :
  URL_canParse env
    (apiBaseUrl env ++ "/scans/" ++ scanId ++ "/compliance/" ++ complianceId)
  = true ->
  remote env (getComplianceCsv_request env scanId complianceId) = inr resp ->
  ok resp = true ->
  status resp <> 202%Z ->
  arrayBuffer resp = inr b ->
  exists v content,
    run (getComplianceCsv env scanId complianceId)
    = (Returned v,
       [EvFetch (getComplianceCsv_request env scanId complianceId)])
    /\ v = Js.Obj [("success", Js.Bool true);
                   ("data", Js.Str (Base64.encode b));
                   ("filename",
                    Js.Str ("scan-" ++ scanId ++ "-compliance-"
                              ++ complianceId ++ ".csv"))]
    /\ Js.get v "data" = inr (Js.Str content)
    /\ Base64.decode content = Some b.
Proof.
  intros Hu Hr Hok Hs Hb.
  exists (Js.Obj [("success", Js.Bool true);
                  ("data", Js.Str (Base64.encode b));
                  ("filename",
                   Js.Str ("scan-" ++ scanId ++ "-compliance-"
                             ++ complianceId ++ ".csv"))]),
    (Base64.encode b).
  split; [|split; [reflexivity|split; [reflexivity|apply decode_encode]]].
  unfold getComplianceCsv, getComplianceCsv_request in *. step_parsed Hu.
  simpl in Hr. rewrite Hr. simpl.
  destruct (Z.eqb_spec (status resp) 202); [contradiction|].
  rewrite Hok. simpl. now rewrite Hb.
Qed.

Lemma getComplianceCsv_ready_roundtrip_witness :
  exists v content,
    run (getComplianceCsv (Sample.answers Sample.csv_response) "scan1" "cis")
    = (Returned v,
       [EvFetch (getComplianceCsv_request (Sample.answers Sample.csv_response)
                   "scan1" "cis")])
    /\ v = Js.Obj [("success", Js.Bool true);
                   ("data", Js.Str "YSxiCg==");
                   ("filename", Js.Str "scan-scan1-compliance-cis.csv")]
    /\ Js.get v "data" = inr (Js.Str content)
    /\ Base64.decode content = Some Sample.csv_bytes.
Proof.
  apply (getComplianceCsv_ready_roundtrip
           (Sample.answers Sample.csv_response) "scan1" "cis"
           Sample.csv_response Sample.csv_bytes);
    try reflexivity.
  simpl. lia.
Defined.

(** X16.  [getExportsZip] takes every 2xx status other than 202 for a
    finished report and never parses that body as JSON: the bytes are
    returned as [{success: true, data: base64(bytes), filename:
    "scan-<scanId>-report.zip"}], an empty body with the empty string for
    [data], and a body that cannot be read as
    [{error: getErrorMessage(e)}]. *)
Theorem getExportsZip_any_2xx env scanId resp :
  URL_canParse env (apiBaseUrl env ++ "/scans/" ++ scanId ++ "/report") = true ->
  remote env (getExportsZip_request env scanId) = inr resp ->
  ok resp = true ->
  status resp <> 202%Z ->
  run (getExportsZip env scanId)
  = (Returned match arrayBuffer resp with
              | inr b =>
                  Js.Obj [("success", Js.Bool true);
                          ("data", Js.Str (Base64.encode b));
                          ("filename",
                           Js.Str ("scan-" ++ scanId ++ "-report.zip"))]
              | inl e => Js.Obj [("error", Js.Str (getErrorMessage env e))]
              end,
     [EvFetch (getExportsZip_request env scanId)])
  /\ Base64.encode [] = "".
Proof.
  intros Hu Hr Hok Hs. split; [|reflexivity].
  unfold getExportsZip, getExportsZip_request in *. step_parsed Hu.
  simpl in Hr. rewrite Hr. simpl.
  destruct (Z.eqb_spec (status resp) 202); [contradiction|].
  rewrite Hok. simpl. destruct (arrayBuffer resp); reflexivity.
Qed.

Lemma getExportsZip_any_2xx_witness :
  run (getExportsZip
         (Sample.answers
            (mkResponse 204 "No Content" (inl Sample.syntax_error) (inr [])))
         "scan1")
  = (Returned (Js.Obj [("success", Js.Bool true);
                       ("data", Js.Str "");
                       ("filename", Js.Str "scan-scan1-report.zip")]),
     [EvFetch (getExportsZip_request
                 (Sample.answers
                    (mkResponse 204 "No Content" (inl Sample.syntax_error)
                       (inr [])))
                 "scan1")]).
Proof.
  apply (getExportsZip_any_2xx
           (Sample.answers
              (mkResponse 204 "No Content" (inl Sample.syntax_error) (inr [])))
           "scan1"
           (mkResponse 204 "No Content" (inl Sample.syntax_error) (inr [])));
    try reflexivity.
  simpl. lia.
Defined.

(** X17.  When an answer outside the 2xx range carries [errors] as an
    object with a non-empty string [detail], both artifact actions return
    that detail: [{error: getErrorMessage(Error(detail))}]. *)
Theorem artifact_errors_object_detail env scanId complianceId resp doc d :
  ok resp = false ->
  status resp <> 202%Z ->
  json resp = inr doc ->
  Js.opt_get (Js.opt_get doc "errors") "detail" = Js.Str d ->
  d <> "" ->
  (URL_canParse env (apiBaseUrl env ++ "/scans/" ++ scanId ++ "/report")
   = true ->
   remote env (getExportsZip_request env scanId) = inr resp ->
   run (getExportsZip env scanId)
   = (Returned (obj_error env (Js.mkError "Error" d)),
      [EvFetch (getExportsZip_request env scanId)]))
  /\ (URL_canParse env
        (apiBaseUrl env ++ "/scans/" ++ scanId ++ "/compliance/"
           ++ complianceId) = true ->
      remote env (getComplianceCsv_request env scanId complianceId)
      = inr resp ->
      run (getComplianceCsv env scanId complianceId)
      = (Returned (obj_error env (Js.mkError "Error" d)),
         [EvFetch (getComplianceCsv_request env scanId complianceId)])).
Proof.
  intros Hok Hs Hj Hd Hne.
  assert (Ht : Js.truthy (Js.Str d) = true) by (destruct d; [tauto|reflexivity]).
  split; intros Hu Hr.
  - unfold getExportsZip, getExportsZip_request in *. step_parsed Hu.
    simpl in Hr. rewrite Hr. simpl.
    destruct (Z.eqb_spec (status resp) 202); [contradiction|].
    rewrite Hok. simpl. rewrite Hj. simpl.
    unfold Js.or. rewrite Hd, Ht. reflexivity.
  - unfold getComplianceCsv, getComplianceCsv_request in *. step_parsed Hu.
    simpl in Hr. rewrite Hr. simpl.
    destruct (Z.eqb_spec (status resp) 202); [contradiction|].
    rewrite Hok. simpl. rewrite Hj. simpl.
    unfold Js.or. rewrite Hd, Ht. reflexivity.
Qed.

Lemma artifact_errors_object_detail_witness :
  run (getExportsZip (Sample.answers Sample.forbidden) "scan1")
  = (Returned (Js.Obj [("error", Js.Str "forbidden")]),
     [EvFetch (getExportsZip_request (Sample.answers Sample.forbidden)
                 "scan1")])
  /\ run (getComplianceCsv (Sample.answers Sample.forbidden) "scan1" "cis")
     = (Returned (Js.Obj [("error", Js.Str "forbidden")]),
        [EvFetch (getComplianceCsv_request (Sample.answers Sample.forbidden)
                    "scan1" "cis")]).
Proof.
  destruct (artifact_errors_object_detail (Sample.answers Sample.forbidden)
              "scan1" "cis" Sample.forbidden
              (Js.Obj [("errors", Js.Obj [("detail", Js.Str "forbidden")])])
              "forbidden") as [H1 H2];
    try reflexivity.
  - simpl. lia.
  - discriminate.
  - split; [apply H1 | apply H2]; reflexivity.
Defined.

(** X18.  A 202 answer whose body does not parse is not a pending result:
    both artifact actions return [{error: getErrorMessage(e)}] for the
    rejection of [response.json()]. *)
Theorem artifact_accepted_unparsable env scanId complianceId resp e :
  status resp = 202%Z ->
  json resp = inl e ->
  (URL_canParse env (apiBaseUrl env ++ "/scans/" ++ scanId ++ "/report")
   = true ->
   remote env (getExportsZip_request env scanId) = inr resp ->
   run (getExportsZip env scanId)
   = (Returned (obj_error env e),
      [EvFetch (getExportsZip_request env scanId)]))
  /\ (URL_canParse env
        (apiBaseUrl env ++ "/scans/" ++ scanId ++ "/compliance/"
           ++ complianceId) = true ->
      remote env (getComplianceCsv_request env scanId complianceId)
      = inr resp ->
      run (getComplianceCsv env scanId complianceId)
      = (Returned (obj_error env e),
         [EvFetch (getComplianceCsv_request env scanId complianceId)])).
Proof.
  intros Hs Hj. split; intros Hu Hr.
  - unfold getExportsZip, getExportsZip_request in *. step_parsed Hu.
    simpl in Hr. rewrite Hr. simpl. rewrite Hs. simpl. now rewrite Hj.
  - unfold getComplianceCsv, getComplianceCsv_request in *. step_parsed Hu.
    simpl in Hr. rewrite Hr. simpl. rewrite Hs. simpl. now rewrite Hj.
Qed.

Lemma artifact_accepted_unparsable_witness :
  run (getExportsZip (Sample.answers Sample.accepted_unparsable) "scan1")
  = (Returned (Js.Obj [("error", Js.Str "Unexpected end of JSON input")]),
     [EvFetch (getExportsZip_request
                 (Sample.answers Sample.accepted_unparsable) "scan1")])
  /\ run (getComplianceCsv (Sample.answers Sample.accepted_unparsable)
            "scan1" "cis")
     = (Returned (Js.Obj [("error", Js.Str "Unexpected end of JSON input")]),
        [EvFetch (getComplianceCsv_request
                    (Sample.answers Sample.accepted_unparsable)
                    "scan1" "cis")]).
Proof.
  destruct (artifact_accepted_unparsable
              (Sample.answers Sample.accepted_unparsable) "scan1" "cis"
              Sample.accepted_unparsable Sample.syntax_error) as [H1 H2];
    try reflexivity.
  split; [apply H1 | apply H2]; reflexivity.
Defined.

(** ** The query string, further *)

Lemma getScans_url_without_size env p n query sort filters fields include :
  (p <> 0)%Z ->
  falsy_number n ->
  getScans_url env (Js.Int p) query sort filters n fields include
  = mkURL (apiBaseUrl env ++ "/scans")
      (("page[number]", Js.string_of_Z p)
         :: optional_param "filter[search]" query
         ++ optional_param "sort" sort
         ++ optional_param "include" include
         ++ map (fun kv => ("fields[" ++ fst kv ++ "]", Js.toString (snd kv)))
              fields
         ++ map (fun kv => (fst kv, Js.toString (snd kv))) filters).
Proof.
  intros Hp Hn. unfold getScans_url, getScans_params.
  rewrite !fold_left_append, !append_if_string. simpl.
  destruct (Z.eqb_spec p 0) as [|_]; [contradiction|].
  assert (Hf : Js.number_truthy n = false).
  { destruct n as [|z]; simpl in *; [reflexivity|]. now subst. }
  rewrite Hf. simpl. now rewrite <- !app_assoc.
Qed.

(** X19.  A page size of 0 (or [NaN]) is treated like a missing one after
    the default was passed over: the request is still sent, with
    [page[number]] first and no [page[size]] entry of its own; the other
    parameters follow in their usual order. *)
Theorem getScans_falsy_page_size env a p :
  URL_canParse env (apiBaseUrl env ++ "/scans") = true ->
  default (Js.Int 1) (page a) = Js.Int p ->
  (1 <= p <= Js.MAX_SAFE_INTEGER)%Z ->
  falsy_number (default (Js.Int 10) (pageSize a)) ->
  first_request (snd (run (getScans env a)))
  = Some (mkRequest
            (mkURL (apiBaseUrl env ++ "/scans")
               (("page[number]", Js.string_of_Z p)
                  :: optional_param "filter[search]" (default "" (query a))
                  ++ optional_param "sort" (default "" (sort a))
                  ++ optional_param "include" (default "" (include a))
                  ++ map (fun kv => ("fields[" ++ fst kv ++ "]",
                                     Js.toString (snd kv)))
                       (default [] (fields a))
                  ++ map (fun kv => (fst kv, Js.toString (snd kv)))
                       (default [] (filters a))))
            "GET" (getAuthHeaders env false) None).
Proof.
  intros Hu Hp Hpr Hn. unfold getScans. rewrite Hp. simpl.
  destruct (Z.ltb_spec p 1) as [|_]; [lia|].
  step_parsed Hu.
  fold (getScans_url env (Js.Int p) (default "" (query a))
          (default "" (sort a)) (default [] (filters a))
          (default (Js.Int 10) (pageSize a))
          (default [] (fields a)) (default "" (include a))).
  rewrite getScans_url_without_size by (trivial; lia).
  branches; reflexivity.
Qed.

Lemma getScans_falsy_page_size_witness :
  first_request (snd (run (getScans Sample.unreachable Sample.zero_size_query)))
  = Some (mkRequest
            (mkURL "http://api.test/api/v1/scans"
               [("page[number]", "3"); ("sort", "name")])
            "GET" (Sample.getAuthHeaders false) None).
Proof.
  apply (getScans_falsy_page_size Sample.unreachable Sample.zero_size_query 3);
    try reflexivity.
  unfold Js.MAX_SAFE_INTEGER. lia.
Defined.

(** ** The encoded content *)

Lemma char_of_sextet_in_alphabet n :
  (n < 64)%N -> In (Base64.char_of_sextet n) Base64.alphabet.
Proof.
  intros H. unfold Base64.char_of_sextet. apply nth_In.
  change (List.length Base64.alphabet) with 64%nat. lia.
Qed.

Lemma encode_chars (bs : list byte) :
  Forall (fun c => In c Base64.alphabet \/ c = Base64.pad)
    (list_ascii_of_string (Base64.encode bs)).
Proof.
  induction bs as [|a|a b|a b c l IH] using list_ind3.
  - constructor.
  - pose proof (Byte.to_N_bounded a).
    cbn [Base64.encode list_ascii_of_string].
    repeat (apply Forall_cons;
            [first [ left; apply char_of_sextet_in_alphabet; div_lia
                   | right; reflexivity ]|]).
    apply Forall_nil.
  - pose proof (Byte.to_N_bounded a). pose proof (Byte.to_N_bounded b).
    cbn [Base64.encode list_ascii_of_string].
    repeat (apply Forall_cons;
            [first [ left; apply char_of_sextet_in_alphabet; div_lia
                   | right; reflexivity ]|]).
    apply Forall_nil.
  - pose proof (Byte.to_N_bounded a). pose proof (Byte.to_N_bounded b).
    pose proof (Byte.to_N_bounded c).
    cbn [Base64.encode list_ascii_of_string].
    repeat (apply Forall_cons; [left; apply char_of_sextet_in_alphabet; div_lia|]).
    exact IH.
Qed.

Lemma encode_length (bs : list byte) :
  String.length (Base64.encode bs) = 4 * ((List.length bs + 2) / 3).
Proof.
  induction bs as [|a|a b|a b c l IH] using list_ind3; try reflexivity.
  cbn [Base64.encode String.length List.length]. rewrite IH.
  replace (S (S (S (List.length l))) + 2) with (List.length l + 2 + 1 * 3) by lia.
  rewrite Nat.div_add by lia. lia.
Qed.

(** X20.  The [data] of a ready result is plain text of a known size: for
    a body of [n] bytes the encoding built by [getExportsZip] and
    [getComplianceCsv] has [4 * ceil(n / 3)] characters, each one a letter,
    a digit, [+], [/] or the padding [=]. *)
Theorem encoded_content_text (bs : list byte) :
  String.length (Base64.encode bs) = 4 * ((List.length bs + 2) / 3)
  /\ Forall (fun c => In c Base64.alphabet \/ c = Base64.pad)
       (list_ascii_of_string (Base64.encode bs)).
Proof.
  split; [apply encode_length | apply encode_chars].
Qed.
